(** * The Life Dashboard tab type of Thunderbird, and the tab engine it plugs into

    Shallow embedding of [mail/base/content/lifeTabs.js] (the tab type
    [lifeTabType] and the monitor [lifeTabMonitor]) and of the second copy of
    that file which performs a backend health check before loading.

    JavaScript objects are modelled by a field-indexed store: every tab info
    object and every DOM element is a reference, and each property the code
    reads or writes ([tab.title], [tab.browser], an element attribute, ...) is
    a finite map from references to values.  Two tabs holding the same browser
    element therefore see each other's attribute writes, and [tab !== other]
    is comparison of references. *)

From Stdlib Require Import ZArith.
From stdpp Require Import base option list strings gmap.

Local Open Scope string_scope.

(** ** JavaScript values and plain objects *)

Inductive Value :=
  | VUndefined
  | VNull
  | VBool (b : bool)
  | VNum (z : Z)
  | VStr (s : string).

#[global] Instance Value_eq_dec : EqDecision Value.
Proof. solve_decision. Defined.

(** ToBoolean. *)
Definition truthy (v : Value) : bool :=
  match v with
  | VUndefined | VNull => false
  | VBool b => b
  | VNum z => negb (z =? 0)%Z
  | VStr s => negb (String.eqb s "")
  end.

(** A plain object ([args], a persisted state record): property name to value. *)
Abbreviation Obj := (gmap string Value).

(** [o.k]: a missing property reads as [undefined]. *)
Definition get (o : Obj) (k : string) : Value := default VUndefined (o !! k).

(** [a || b] *)
Definition or_else (a b : Value) : Value := if truthy a then a else b.

(** ** The store *)

(** Identity of a tab info object, and of a DOM element. *)
Abbreviation tabref := positive.
Abbreviation elem := positive.

(** Modelled from the spec: the state of the tabmail element of the missing
    tabmail.js. lifeTabs.js reads [tabModes.life.tabs], [tabInfo] and
    [currentTabInfo] off it; the registries, the MonitorBus and the tab id
    counter are the engine's own (2, 3). *)
Record Tabmail := mkTabmail {
  tabTypes : gset string;                (* names of the registered tab types *)
  tabModes : gmap string (list tabref);  (* tabModes[name].tabs, for every registered mode *)
  tabInfo : list tabref;                 (* the open tabs, in order *)
  currentTabInfo : option tabref;        (* the selected tab *)
  tabMonitors : list string;             (* monitorName of the registered monitors *)
  tabId : positive;                      (* next tab id *)
}.

(** What can be thrown: by the script itself, and by the engine (7). *)
Inductive Error :=
  | TypeError                (* a property read on null or undefined *)
  | FetchFailed              (* a rejected fetch: network failure or abort *)
  | DuplicateTypeName
  | DuplicateModeName
  | InvalidDescriptor
  | UnknownMode
  | ModeCapacityExceeded
  | CannotCloseLastTab
  | MonitorNotificationFailure.

Record World := mkWorld {
  tabmail : option Tabmail;                 (* document.getElementById("tabmail") *)
  lifeTabBrowser : option elem;             (* document.getElementById("lifeTabBrowser") *)
  attributes : gmap (elem * string) string; (* element.getAttribute(name) *)
  currentURI : gmap elem string;            (* browser.currentURI.spec; absent: currentURI is null *)
  icons : gmap elem string;                 (* tabNode.setIcon(url) *)
  next_elem : elem;                         (* the next element to be created *)
  tab_mode : gmap tabref string;            (* tab.mode.name *)
  tab_tabNode : gmap tabref elem;           (* tab.tabNode *)
  tab_panel : gmap tabref elem;             (* tab.panel, for a tab with a panel of its own *)
  tab_title : gmap tabref string;           (* tab.title *)
  tab_browser : gmap tabref elem;           (* tab.browser; absent: null or undefined *)
  loaded : list (elem * Value);             (* MailE10SUtils.loadURI(browser, url), oldest first *)
  fetching : list (tabref * Value);         (* health checks whose fetch has not settled *)
  reported : list Error;                    (* failures that were caught and reported, oldest first *)
}.

Definition set_tabmail (f : option Tabmail → option Tabmail) (w : World) : World :=
  mkWorld (f (tabmail w)) (lifeTabBrowser w) (attributes w) (currentURI w) (icons w)
    (next_elem w) (tab_mode w) (tab_tabNode w) (tab_panel w) (tab_title w)
    (tab_browser w) (loaded w) (fetching w) (reported w).
Definition set_lifeTabBrowser (f : option elem → option elem) (w : World) : World :=
  mkWorld (tabmail w) (f (lifeTabBrowser w)) (attributes w) (currentURI w) (icons w)
    (next_elem w) (tab_mode w) (tab_tabNode w) (tab_panel w) (tab_title w)
    (tab_browser w) (loaded w) (fetching w) (reported w).
Definition set_attributes (f : gmap (elem * string) string → gmap (elem * string) string) (w : World) : World :=
  mkWorld (tabmail w) (lifeTabBrowser w) (f (attributes w)) (currentURI w) (icons w)
    (next_elem w) (tab_mode w) (tab_tabNode w) (tab_panel w) (tab_title w)
    (tab_browser w) (loaded w) (fetching w) (reported w).
Definition set_currentURI (f : gmap elem string → gmap elem string) (w : World) : World :=
  mkWorld (tabmail w) (lifeTabBrowser w) (attributes w) (f (currentURI w)) (icons w)
    (next_elem w) (tab_mode w) (tab_tabNode w) (tab_panel w) (tab_title w)
    (tab_browser w) (loaded w) (fetching w) (reported w).
Definition set_icons (f : gmap elem string → gmap elem string) (w : World) : World :=
  mkWorld (tabmail w) (lifeTabBrowser w) (attributes w) (currentURI w) (f (icons w))
    (next_elem w) (tab_mode w) (tab_tabNode w) (tab_panel w) (tab_title w)
    (tab_browser w) (loaded w) (fetching w) (reported w).
Definition set_next_elem (f : elem → elem) (w : World) : World :=
  mkWorld (tabmail w) (lifeTabBrowser w) (attributes w) (currentURI w) (icons w)
    (f (next_elem w)) (tab_mode w) (tab_tabNode w) (tab_panel w) (tab_title w)
    (tab_browser w) (loaded w) (fetching w) (reported w).
Definition set_tab_mode (f : gmap tabref string → gmap tabref string) (w : World) : World :=
  mkWorld (tabmail w) (lifeTabBrowser w) (attributes w) (currentURI w) (icons w)
    (next_elem w) (f (tab_mode w)) (tab_tabNode w) (tab_panel w) (tab_title w)
    (tab_browser w) (loaded w) (fetching w) (reported w).
Definition set_tab_tabNode (f : gmap tabref elem → gmap tabref elem) (w : World) : World :=
  mkWorld (tabmail w) (lifeTabBrowser w) (attributes w) (currentURI w) (icons w)
    (next_elem w) (tab_mode w) (f (tab_tabNode w)) (tab_panel w) (tab_title w)
    (tab_browser w) (loaded w) (fetching w) (reported w).
Definition set_tab_panel (f : gmap tabref elem → gmap tabref elem) (w : World) : World :=
  mkWorld (tabmail w) (lifeTabBrowser w) (attributes w) (currentURI w) (icons w)
    (next_elem w) (tab_mode w) (tab_tabNode w) (f (tab_panel w)) (tab_title w)
    (tab_browser w) (loaded w) (fetching w) (reported w).
Definition set_tab_title (f : gmap tabref string → gmap tabref string) (w : World) : World :=
  mkWorld (tabmail w) (lifeTabBrowser w) (attributes w) (currentURI w) (icons w)
    (next_elem w) (tab_mode w) (tab_tabNode w) (tab_panel w) (f (tab_title w))
    (tab_browser w) (loaded w) (fetching w) (reported w).
Definition set_tab_browser (f : gmap tabref elem → gmap tabref elem) (w : World) : World :=
  mkWorld (tabmail w) (lifeTabBrowser w) (attributes w) (currentURI w) (icons w)
    (next_elem w) (tab_mode w) (tab_tabNode w) (tab_panel w) (tab_title w)
    (f (tab_browser w)) (loaded w) (fetching w) (reported w).
Definition set_loaded (f : list (elem * Value) → list (elem * Value)) (w : World) : World :=
  mkWorld (tabmail w) (lifeTabBrowser w) (attributes w) (currentURI w) (icons w)
    (next_elem w) (tab_mode w) (tab_tabNode w) (tab_panel w) (tab_title w)
    (tab_browser w) (f (loaded w)) (fetching w) (reported w).
Definition set_fetching (f : list (tabref * Value) → list (tabref * Value)) (w : World) : World :=
  mkWorld (tabmail w) (lifeTabBrowser w) (attributes w) (currentURI w) (icons w)
    (next_elem w) (tab_mode w) (tab_tabNode w) (tab_panel w) (tab_title w)
    (tab_browser w) (loaded w) (f (fetching w)) (reported w).
Definition set_reported (f : list Error → list Error) (w : World) : World :=
  mkWorld (tabmail w) (lifeTabBrowser w) (attributes w) (currentURI w) (icons w)
    (next_elem w) (tab_mode w) (tab_tabNode w) (tab_panel w) (tab_title w)
    (tab_browser w) (loaded w) (fetching w) (f (reported w)).

(** ** Effects: state that survives a throw *)

Inductive Res (A : Type) :=
  | Ok (a : A)
  | Throw (e : Error).
Arguments Ok {A} a.
Arguments Throw {A} e.

Definition M (A : Type) : Type := World → Res A * World.

Definition ret {A} (a : A) : M A := λ w, (Ok a, w).
Definition throw {A} (e : Error) : M A := λ w, (Throw e, w).
Definition bind {A B} (m : M A) (k : A → M B) : M B :=
  λ w, match m w with
       | (Ok a, w') => k a w'
       | (Throw e, w') => (Throw e, w')
       end.
Definition gets {A} (f : World → A) : M A := λ w, (Ok (f w), w).
Definition modify (f : World → World) : M unit := λ w, (Ok tt, f w).
(** [try { m } catch { h }] *)
Definition try_catch {A} (m h : M A) : M A :=
  λ w, match m w with
       | (Ok a, w') => (Ok a, w')
       | (Throw _, w') => h w'
       end.

Notation "'let*' x ':=' m 'in' k" := (bind m (λ x, k))
  (at level 10, x name, m at level 100, k at level 200).
Notation "m ';;' k" := (bind m (λ _, k))
  (at level 100, k at level 200, right associativity).

(** A value that must not be null or undefined before a property is read. *)
Definition nonnull {A} (o : option A) : M A :=
  match o with
  | Some a => ret a
  | None => throw TypeError
  end.

(** *** DOM and tab primitives *)

Definition setAttribute (e : elem) (name value : string) : M unit :=
  modify (set_attributes <[(e, name) := value]>).
Definition removeAttribute (e : elem) (name : string) : M unit :=
  modify (set_attributes (delete (e, name))).
Definition setIcon (node : elem) (icon : string) : M unit :=
  modify (set_icons <[node := icon]>).
(** [MailE10SUtils.loadURI(browser, url)] *)
Definition loadURI (browser : option elem) (uri : Value) : M unit :=
  let* b := nonnull browser in
  modify (set_loaded (λ l, (l ++ [(b, uri)])%list)).

(** [tab.title = s] *)
Definition assign_title (tab : tabref) (s : string) : M unit :=
  modify (set_tab_title <[tab := s]>).
(** [tab.browser = b]; [b] may be null *)
Definition assign_browser (tab : tabref) (b : option elem) : M unit :=
  modify (set_tab_browser (λ m, match b with
                                | Some e => <[tab := e]> m
                                | None => delete tab m
                                end)).
(** [tab.browser] *)
Definition browser_of (tab : tabref) : M (option elem) :=
  gets (λ w, tab_browser w !! tab).

(** [array.indexOf(x)], as an integer: the first position of [x], or -1. *)
Fixpoint indexOf (l : list tabref) (x : tabref) : Z :=
  match l with
  | [] => -1
  | y :: l' =>
      if decide (y = x) then 0%Z
      else let i := indexOf l' x in if (i <? 0)%Z then (-1)%Z else (i + 1)%Z
  end.

(** [tab.mode.name]; [tab.mode] undefined makes the read throw. *)
Definition mode_name_of (tab : tabref) : M string :=
  let* m := gets (λ w, tab_mode w !! tab) in
  nonnull m.

(** [document.getElementById("tabmail")] followed by a property read. *)
Definition tabmail_get {A} (f : Tabmail → A) : M A :=
  let* tabmail := gets tabmail in
  let* tm := nonnull tabmail in
  ret (f tm).

(** ** What a provider hands to the engine *)

(** A mode of a tab type: every hook is optional. The first argument of
    [restoreTab] is the [openTab] method of the tabmail it is given. *)
Module Mode.
Record t := {
  type : string;
  isDefault : option bool;
  maxTabs : option nat;
  openTab : option (tabref → Obj → M unit);
  closeTab : option (tabref → M unit);
  saveTabState : option (tabref → M unit);
  showTab : option (tabref → M unit);
  persistTab : option (tabref → M Obj);
  restoreTab : option ((string → Obj → M (option tabref)) → Obj → M unit);
  onTitleChanged : option (tabref → M unit);
  shouldSwitchTo : option (Obj → M Z);
  getBrowser : option (tabref → M (option elem));
  supportsCommand : option (string → M bool);
  isCommandEnabled : option (string → M bool);
  doCommand : option (string → M unit);
  onEvent : option (string → M unit);
}.
End Mode.

Inductive PerTabPanel :=
  | ElementName (tag : string)
  | Factory (create : tabref → M elem).

Module TabType.
Record t := {
  name : string;
  panelId : option string;
  perTabPanel : option PerTabPanel;
  modes : list (string * Mode.t);
  openTab : option (tabref → Obj → M unit);
  closeTab : option (tabref → M unit);
  saveTabState : option (tabref → M unit);
  showTab : option (tabref → M unit);
}.
End TabType.

Module TabMonitor.
Record t := {
  monitorName : string;
  onTabTitleChanged : tabref → M unit;
  onTabOpened : tabref → M unit;
  onTabClosing : tabref → M unit;
  onTabPersist : tabref → M unit;
  onTabRestored : tabref → Obj → M unit;
  onTabSwitched : option tabref → option tabref → M unit;
}.
End TabMonitor.

(** ** lifeTabs.js *)

Module LifeTabs.

Definition LIFE_DASHBOARD_DEFAULT_URL : string :=
  "data:text/html,<html><head><title>Life Dashboard</title><style>body{font-family:system-ui,-apple-system,sans-serif;display:flex;justify-content:center;align-items:center;min-height:100vh;margin:0;background:linear-gradient(135deg,%23667eea%200%25,%23764ba2%20100%25);color:white;}</style></head><body><div style='text-align:center'><h1>Life Dashboard</h1><p>Browser element loaded successfully!</p><p>Ready for FastAPI backend connection.</p></div></body></html>".

Module lifeTabMonitor.
Definition monitorName : string := "lifeTabMonitor".

Definition onTabTitleChanged (_ : tabref) : M unit := ret tt.
Definition onTabOpened (_ : tabref) : M unit := ret tt.
Definition onTabClosing (_ : tabref) : M unit := ret tt.
Definition onTabPersist (_ : tabref) : M unit := ret tt.
Definition onTabRestored (_ : tabref) (_ : Obj) : M unit := ret tt.

(** [aTab?.mode.name === "life"] *)
Definition is_life (aTab : option tabref) : M bool :=
  match aTab with
  | None => ret false
  | Some tab => let* n := mode_name_of tab in ret (String.eqb n "life")
  end.

Definition onTabSwitched (aNewTab aOldTab : option tabref) : M unit :=
  let* old := is_life aOldTab in
  (if old then ret tt else ret tt);;
  let* new := is_life aNewTab in
  if new then ret tt else ret tt.
End lifeTabMonitor.

Module life.
Definition type : string := "life".
Definition maxTabs : nat := 1.

Definition openTab (tab : tabref) (args : Obj) : M unit :=
  let* tabNode := gets (λ w, tab_tabNode w !! tab) in
  let* node := nonnull tabNode in
  setIcon node "chrome://messenger/skin/icons/new/compact/calendar.svg";;
  assign_title tab "Life Dashboard";;
  let* b := gets lifeTabBrowser in
  assign_browser tab b;;
  let* browser := browser_of tab in
  match browser with
  | Some br =>
      setAttribute br "type" "content";;
      let url := or_else (get args "url") (VStr LIFE_DASHBOARD_DEFAULT_URL) in
      let* browser := browser_of tab in
      loadURI browser url
  | None => ret tt
  end.

Definition showTab (tab : tabref) : M unit :=
  let* browser := browser_of tab in
  match browser with
  | Some br =>
      setAttribute br "type" "content";;
      setAttribute br "primary" "true"
  | None => ret tt
  end.

Definition closeTab (tab : tabref) : M unit := ret tt.

(** [tab.browser?.currentURI?.spec] *)
Definition currentURI_spec (tab : tabref) : M Value :=
  gets (λ w, match tab_browser w !! tab with
             | None => VUndefined
             | Some br => match currentURI w !! br with
                          | None => VUndefined
                          | Some spec => VStr spec
                          end
             end).

Definition persistTab (tab : tabref) : M Obj :=
  let* tabmail := gets tabmail in
  let* tabmail := nonnull tabmail in
  let state : Obj :=
    {[ "background" := VBool (negb (bool_decide (Some tab = currentTabInfo tabmail))) ]} in
  let* spec := currentURI_spec tab in
  if truthy spec then ret (<["url" := spec]> state) else ret state.

Definition restoreTab (tabmail_openTab : string → Obj → M (option tabref))
    (state : Obj) : M unit :=
  tabmail_openTab "life" {[ "background" := get state "background" ]};;
  ret tt.

Definition onTitleChanged (tab : tabref) : M unit :=
  assign_title tab "Life Dashboard".

Definition shouldSwitchTo (args : Obj) : M Z :=
  let* tabmail := gets tabmail in
  let* tabmail := nonnull tabmail in
  let* life := nonnull (tabModes tabmail !! "life") in
  let tabIndex :=
    match life !! 0%nat with
    | Some first => indexOf (tabInfo tabmail) first
    | None => (-1)%Z
    end in
  ret tabIndex.

Definition getBrowser (tab : tabref) : M (option elem) :=
  let* browser := browser_of tab in
  match browser with
  | Some br => ret (Some br)
  | None => gets lifeTabBrowser
  end.

Definition supportsCommand (aCommand : string) : M bool := ret false.
Definition isCommandEnabled (aCommand : string) : M bool := ret false.
Definition doCommand (aCommand : string) : M unit := ret tt.
Definition onEvent (aEvent : string) : M unit := ret tt.
End life.

Definition saveTabState (tab : tabref) : M unit :=
  let* browser := browser_of tab in
  match browser with
  | Some br =>
      setAttribute br "type" "content";;
      removeAttribute br "primary"
  | None => ret tt
  end.

Definition lifeTabMonitor : TabMonitor.t :=
  {| TabMonitor.monitorName := lifeTabMonitor.monitorName;
     TabMonitor.onTabTitleChanged := lifeTabMonitor.onTabTitleChanged;
     TabMonitor.onTabOpened := lifeTabMonitor.onTabOpened;
     TabMonitor.onTabClosing := lifeTabMonitor.onTabClosing;
     TabMonitor.onTabPersist := lifeTabMonitor.onTabPersist;
     TabMonitor.onTabRestored := lifeTabMonitor.onTabRestored;
     TabMonitor.onTabSwitched := lifeTabMonitor.onTabSwitched |}.

(** [lifeTabType.modes.life] *)
Definition modes_life : Mode.t :=
  {| Mode.type := life.type;
     Mode.isDefault := None;
     Mode.maxTabs := Some life.maxTabs;
     Mode.openTab := Some life.openTab;
     Mode.closeTab := Some life.closeTab;
     Mode.saveTabState := None;
     Mode.showTab := Some life.showTab;
     Mode.persistTab := Some life.persistTab;
     Mode.restoreTab := Some life.restoreTab;
     Mode.onTitleChanged := Some life.onTitleChanged;
     Mode.shouldSwitchTo := Some life.shouldSwitchTo;
     Mode.getBrowser := Some life.getBrowser;
     Mode.supportsCommand := Some life.supportsCommand;
     Mode.isCommandEnabled := Some life.isCommandEnabled;
     Mode.doCommand := Some life.doCommand;
     Mode.onEvent := Some life.onEvent |}.

Definition lifeTabType : TabType.t :=
  {| TabType.name := "life";
     TabType.panelId := Some "lifeTabPanel";
     TabType.perTabPanel := None;
     TabType.modes := [("life", modes_life)];
     TabType.openTab := None;
     TabType.closeTab := None;
     TabType.saveTabState := Some saveTabState;
     TabType.showTab := None |}.

End LifeTabs.

(** ** The copy of lifeTabs.js that checks the backend before loading *)

(** How the [fetch] of the health endpoint settles. *)
Inductive FetchOutcome :=
  | ResponseOk          (* resolved, response.ok *)
  | ResponseNotOk       (* resolved, not response.ok *)
  | Rejected.           (* network error, or aborted after 3000 ms *)

Module LifeTabsHealthCheck.

Definition LIFE_DASHBOARD_API_URL : string := "http://localhost:8000".

Module lifeTabMonitor.
Definition monitorName : string := "lifeTabMonitor".

Definition onTabTitleChanged (_ : tabref) : M unit := ret tt.
Definition onTabOpened (_ : tabref) : M unit := ret tt.
Definition onTabClosing (_ : tabref) : M unit := ret tt.
Definition onTabPersist (_ : tabref) : M unit := ret tt.
Definition onTabRestored (_ : tabref) (_ : Obj) : M unit := ret tt.

Definition is_life (aTab : option tabref) : M bool :=
  match aTab with
  | None => ret false
  | Some tab => let* n := mode_name_of tab in ret (String.eqb n "life")
  end.

Definition onTabSwitched (aNewTab aOldTab : option tabref) : M unit :=
  let* old := is_life aOldTab in
  (if old then ret tt else ret tt);;
  let* new := is_life aNewTab in
  if new then ret tt else ret tt.
End lifeTabMonitor.

Module life.
Definition type : string := "life".
Definition maxTabs : nat := 1.

Section ErrorPage.
(** The fallback page: a long data URL built from a template literal. *)
Variable LIFE_DASHBOARD_ERROR_PAGE : string.

(** [checkBackendAndLoad] up to its [await]: the fetch is started and
    the rest of the body waits for it. *)
Definition checkBackendAndLoad (tab : tabref) (url : Value) : M unit :=
  modify (set_fetching (λ l, (l ++ [(tab, url)])%list)).

(** [checkBackendAndLoad] from its [await] on, once the fetch has
    settled. *)
Definition checkBackendAndLoad_resume (tab : tabref) (url : Value)
    (outcome : FetchOutcome) : M unit :=
  try_catch
    (match outcome with
     | Rejected => throw FetchFailed
     | ResponseOk =>
         let* browser := browser_of tab in
         loadURI browser url
     | ResponseNotOk =>
         let* browser := browser_of tab in
         loadURI browser (VStr LIFE_DASHBOARD_ERROR_PAGE)
     end)
    (let* browser := browser_of tab in
     loadURI browser (VStr LIFE_DASHBOARD_ERROR_PAGE)).

(** The oldest pending health check settles. *)
Definition settle (outcome : FetchOutcome) : M unit :=
  let* pending := gets fetching in
  match pending with
  | [] => ret tt
  | (tab, url) :: rest =>
      modify (set_fetching (λ _, rest));;
      checkBackendAndLoad_resume tab url outcome
  end.
End ErrorPage.

(** What [this] is while a hook runs: the caller chooses it. Of the objects
    of the file only [lifeTabType.modes.life] has [checkBackendAndLoad];
    [lifeTabType] itself has [name], [panelId], [modes] and [saveTabState]. *)
Inductive Receiver :=
  | ModesLife       (* lifeTabType.modes.life *)
  | LifeTabType     (* lifeTabType *)
  | NoReceiver.     (* undefined *)

#[global] Instance Receiver_eq_dec : EqDecision Receiver.
Proof. solve_decision. Defined.

(** [this.checkBackendAndLoad]; absent, the call throws a TypeError. *)
Definition this_checkBackendAndLoad (this : Receiver) : option (tabref → Value → M unit) :=
  match this with
  | ModesLife => Some checkBackendAndLoad
  | LifeTabType | NoReceiver => None
  end.

Definition openTab (this : Receiver) (tab : tabref) (args : Obj) : M unit :=
  let* tabNode := gets (λ w, tab_tabNode w !! tab) in
  let* node := nonnull tabNode in
  setIcon node "chrome://messenger/skin/icons/new/compact/calendar.svg";;
  assign_title tab "Life Dashboard";;
  let* b := gets lifeTabBrowser in
  assign_browser tab b;;
  let* browser := browser_of tab in
  match browser with
  | Some br =>
      setAttribute br "type" "content";;
      let url := or_else (get args "url") (VStr LIFE_DASHBOARD_API_URL) in
      let* method := nonnull (this_checkBackendAndLoad this) in
      method tab url
  | None => ret tt
  end.

Definition showTab (tab : tabref) : M unit :=
  let* browser := browser_of tab in
  match browser with
  | Some br =>
      setAttribute br "type" "content";;
      setAttribute br "primary" "true"
  | None => ret tt
  end.

Definition closeTab (tab : tabref) : M unit := ret tt.

Definition currentURI_spec (tab : tabref) : M Value :=
  gets (λ w, match tab_browser w !! tab with
             | None => VUndefined
             | Some br => match currentURI w !! br with
                          | None => VUndefined
                          | Some spec => VStr spec
                          end
             end).

Definition persistTab (tab : tabref) : M Obj :=
  let* tabmail := gets tabmail in
  let* tabmail := nonnull tabmail in
  let state : Obj :=
    {[ "background" := VBool (negb (bool_decide (Some tab = currentTabInfo tabmail))) ]} in
  let* spec := currentURI_spec tab in
  if truthy spec then ret (<["url" := spec]> state) else ret state.

Definition restoreTab (tabmail_openTab : string → Obj → M (option tabref))
    (state : Obj) : M unit :=
  tabmail_openTab "life" {[ "background" := get state "background" ]};;
  ret tt.

Definition onTitleChanged (tab : tabref) : M unit :=
  assign_title tab "Life Dashboard".

Definition shouldSwitchTo (args : Obj) : M Z :=
  let* tabmail := gets tabmail in
  let* tabmail := nonnull tabmail in
  let* life := nonnull (tabModes tabmail !! "life") in
  let tabIndex :=
    match life !! 0%nat with
    | Some first => indexOf (tabInfo tabmail) first
    | None => (-1)%Z
    end in
  ret tabIndex.

Definition getBrowser (tab : tabref) : M (option elem) :=
  let* browser := browser_of tab in
  match browser with
  | Some br => ret (Some br)
  | None => gets lifeTabBrowser
  end.

Definition supportsCommand (aCommand : string) : M bool := ret false.
Definition isCommandEnabled (aCommand : string) : M bool := ret false.
Definition doCommand (aCommand : string) : M unit := ret tt.
Definition onEvent (aEvent : string) : M unit := ret tt.
End life.

Definition saveTabState (tab : tabref) : M unit :=
  let* browser := browser_of tab in
  match browser with
  | Some br =>
      setAttribute br "type" "content";;
      removeAttribute br "primary"
  | None => ret tt
  end.

End LifeTabsHealthCheck.

(** ** The tab engine

    [tabmail.js] is not among the sources; the engine is written from its
    specification, over the registry of descriptors that exist in the window:
    [lifeTabType] and [lifeTabMonitor], and those of the other providers. *)

(** Modelled from the spec: updates of the fields of the tabmail of the
    missing tabmail.js (the registries, the TabCollection and its selected
    tab, the MonitorBus, the tab id counter: 2 and 3). *)
Definition set_tabTypes (f : gset string → gset string) (tm : Tabmail) : Tabmail :=
  mkTabmail (f (tabTypes tm)) (tabModes tm) (tabInfo tm) (currentTabInfo tm)
    (tabMonitors tm) (tabId tm).
Definition set_tabModes (f : gmap string (list tabref) → gmap string (list tabref))
    (tm : Tabmail) : Tabmail :=
  mkTabmail (tabTypes tm) (f (tabModes tm)) (tabInfo tm) (currentTabInfo tm)
    (tabMonitors tm) (tabId tm).
Definition set_tabInfo (f : list tabref → list tabref) (tm : Tabmail) : Tabmail :=
  mkTabmail (tabTypes tm) (tabModes tm) (f (tabInfo tm)) (currentTabInfo tm)
    (tabMonitors tm) (tabId tm).
Definition set_currentTabInfo (f : option tabref → option tabref) (tm : Tabmail) : Tabmail :=
  mkTabmail (tabTypes tm) (tabModes tm) (tabInfo tm) (f (currentTabInfo tm))
    (tabMonitors tm) (tabId tm).
Definition set_tabMonitors (f : list string → list string) (tm : Tabmail) : Tabmail :=
  mkTabmail (tabTypes tm) (tabModes tm) (tabInfo tm) (currentTabInfo tm)
    (f (tabMonitors tm)) (tabId tm).
Definition set_tabId (f : positive → positive) (tm : Tabmail) : Tabmail :=
  mkTabmail (tabTypes tm) (tabModes tm) (tabInfo tm) (currentTabInfo tm)
    (tabMonitors tm) (f (tabId tm)).

(** Modelled from the spec: an update of the engine's own state, by a method
    of the missing tabmail.js. *)
Definition tabmail_modify (f : Tabmail → Tabmail) : M unit :=
  let* _ := tabmail_get id in
  modify (set_tabmail (fmap f)).

(** Modelled from the spec: a failure that the missing tabmail.js catches,
    reports and lets go no further (4.4, 4.5, 7). *)
Definition isolated (m : M unit) (report : Error → Error) : M unit :=
  λ w, match m w with
       | (Ok _, w') => (Ok tt, w')
       | (Throw e, w') => (Ok tt, set_reported (λ l, (l ++ [report e])%list) w')
       end.

(** Modelled from the spec: the hook lookup of the missing tabmail.js (6, 9):
    the mode's own hook, else the type's. *)
Definition or_fallback {A} (own fallback : option A) : option A :=
  match own with
  | Some h => Some h
  | None => fallback
  end.

(** Modelled from the spec: the lifecycle events of the missing tabmail.js
    that the MonitorBus fans out (4.2, 4.4), and the handler each one
    reaches. *)
Inductive Event :=
  | TabTitleChanged (tab : tabref)
  | TabOpened (tab : tabref)
  | TabClosing (tab : tabref)
  | TabPersist (tab : tabref)
  | TabRestored (tab : tabref) (state : Obj)
  | TabSwitched (new old : option tabref).

(** Modelled from the spec: the handler of a monitor that an event of the
    missing tabmail.js reaches (4.2, 4.4). *)
Definition deliver (event : Event) (mon : TabMonitor.t) : M unit :=
  match event with
  | TabTitleChanged tab => TabMonitor.onTabTitleChanged mon tab
  | TabOpened tab => TabMonitor.onTabOpened mon tab
  | TabClosing tab => TabMonitor.onTabClosing mon tab
  | TabPersist tab => TabMonitor.onTabPersist mon tab
  | TabRestored tab state => TabMonitor.onTabRestored mon tab state
  | TabSwitched new old => TabMonitor.onTabSwitched mon new old
  end.

Section Engine.

(** Descriptors and monitors of the providers other than the life tab. *)
Variable other_types : list TabType.t.
Variable other_monitors : list TabMonitor.t.

(** Modelled from the spec: the descriptors and the monitors that the
    registries of the missing tabmail.js can hold (4.1, 4.4). *)
Definition providers : list TabType.t := LifeTabs.lifeTabType :: other_types.
Definition observers : list TabMonitor.t := LifeTabs.lifeTabMonitor :: other_monitors.

(** Modelled from the spec: the ModeRegistry lookup of the missing tabmail.js
    (4.1), one type at a time. *)
Definition mode_in (modeName : string) (ty : TabType.t) : option Mode.t :=
  snd <$> List.find (λ '(n, _), String.eqb n modeName) (TabType.modes ty).

(** Modelled from the spec: the ModeRegistry lookup of the missing tabmail.js
    (4.1): the descriptor of a mode, with the type that declares it. *)
Fixpoint find_mode_in (tys : list TabType.t) (modeName : string)
    : option (TabType.t * Mode.t) :=
  match tys with
  | [] => None
  | ty :: rest =>
      match mode_in modeName ty with
      | Some mode => Some (ty, mode)
      | None => find_mode_in rest modeName
      end
  end.
(** Modelled from the spec: the ModeRegistry lookup of the missing tabmail.js
    (4.1), over all the providers. *)
Definition find_mode : string → option (TabType.t * Mode.t) := find_mode_in providers.

(** Modelled from the spec: the monitor that a name of the MonitorBus of the
    missing tabmail.js stands for (4.4). *)
Definition find_monitor (monitorName : string) : option TabMonitor.t :=
  List.find (λ mon, String.eqb (TabMonitor.monitorName mon) monitorName) observers.

(** Modelled from the spec: registerTabType of the missing tabmail.js (4.1).
    A duplicate type name, then neither or both presentation strategies, then
    a mode name already in the mode registry; on success every mode of the
    type enters the registry with no open tab. *)
Definition registerTabType (descriptor : TabType.t) : M unit :=
  let* types := tabmail_get tabTypes in
  let* modes := tabmail_get tabModes in
  if bool_decide (TabType.name descriptor ∈ types) then throw DuplicateTypeName
  else if negb (xorb (bool_decide (is_Some (TabType.panelId descriptor)))
                     (bool_decide (is_Some (TabType.perTabPanel descriptor))))
  then throw InvalidDescriptor
  else if existsb (λ '(n, _), bool_decide (is_Some (modes !! n))) (TabType.modes descriptor)
  then throw DuplicateModeName
  else
    tabmail_modify (set_tabTypes (λ s, {[TabType.name descriptor]} ∪ s));;
    tabmail_modify
      (set_tabModes (λ m, foldr (λ '(n, _) acc, <[n := []]> acc) m (TabType.modes descriptor))).

(** Modelled from the spec: registerTabMonitor of the missing tabmail.js
    (4.4): an insertion-ordered set. *)
Definition registerTabMonitor (monitor : TabMonitor.t) : M unit :=
  let n := TabMonitor.monitorName monitor in
  tabmail_modify (set_tabMonitors (λ l, if bool_decide (n ∈ l) then l else (l ++ [n])%list)).

(** Modelled from the spec: the MonitorBus of the missing tabmail.js (4.4):
    every registered monitor, in registration order; a failing monitor is
    reported and the others are still told. *)
Fixpoint notify_each (event : Event) (names : list string) : M unit :=
  match names with
  | [] => ret tt
  | n :: rest =>
      match find_monitor n with
      | Some mon => isolated (deliver event mon) (λ _, MonitorNotificationFailure)
      | None => ret tt
      end;;
      notify_each event rest
  end.

(** Modelled from the spec: the MonitorBus of the missing tabmail.js (4.4),
    over the monitors registered at the time of the event. *)
Definition notify (event : Event) : M unit :=
  let* names := tabmail_get tabMonitors in
  notify_each event names.

(** Modelled from the spec: the descriptors behind a tab of the missing
    tabmail.js: its mode, and the type for the fallback hooks (3, 6). *)
Definition hooks_of (tab : tabref) : M (option (TabType.t * Mode.t)) :=
  let* n := mode_name_of tab in
  ret (find_mode n).

(** Modelled from the spec: the saveTabState hook of a tab's mode, or the
    type's, as the missing tabmail.js invokes it in a Switch (4.2). *)
Definition run_saveTabState (tab : tabref) : M unit :=
  let* d := hooks_of tab in
  match d with
  | Some (ty, mode) =>
      match or_fallback (Mode.saveTabState mode) (TabType.saveTabState ty) with
      | Some hook => hook tab
      | None => ret tt
      end
  | None => ret tt
  end.

(** Modelled from the spec: the showTab hook of a tab's mode, or the type's,
    as the missing tabmail.js invokes it in a Switch (4.2). *)
Definition run_showTab (tab : tabref) : M unit :=
  let* d := hooks_of tab in
  match d with
  | Some (ty, mode) =>
      match or_fallback (Mode.showTab mode) (TabType.showTab ty) with
      | Some hook => hook tab
      | None => ret tt
      end
  | None => ret tt
  end.

(** Modelled from the spec: the Switch transition of the missing tabmail.js
    (4.2): nothing when the tab is already selected; else saveTabState of the
    outgoing tab, then showTab of the incoming one, then the selection, then
    the monitors. *)
Definition switchToTab (tab : tabref) : M unit :=
  let* current := tabmail_get currentTabInfo in
  if bool_decide (current = Some tab) then ret tt
  else
    match current with
    | Some old => run_saveTabState old
    | None => ret tt
    end;;
    run_showTab tab;;
    tabmail_modify (set_currentTabInfo (λ _, Some tab));;
    notify (TabSwitched (Some tab) current).

(** Modelled from the spec: the PanelAllocator of the missing tabmail.js
    (4.3): nothing to create for a shared panel; a panel of the tab's own
    otherwise, from the factory or from the named container. *)
Definition allocate_panel (ty : TabType.t) (tab : tabref) : M unit :=
  match TabType.perTabPanel ty with
  | None => ret tt
  | Some (Factory create) =>
      let* panel := create tab in
      modify (set_tab_panel <[tab := panel]>)
  | Some (ElementName _) =>
      let* panel := gets next_elem in
      modify (set_next_elem Pos.succ);;
      modify (set_tab_panel <[tab := panel]>)
  end.

(** Modelled from the spec: the TabRecord that the missing tabmail.js creates
    when a tab opens (3): the next tab id, the mode, a tab node of its own. *)
Definition new_tab (modeName : string) : M tabref :=
  let* tab := tabmail_get tabId in
  tabmail_modify (set_tabId Pos.succ);;
  let* node := gets next_elem in
  modify (set_next_elem Pos.succ);;
  modify (set_tab_mode <[tab := modeName]>);;
  modify (set_tab_tabNode <[tab := node]>);;
  ret tab.

(** Modelled from the spec: the capacity check of the missing tabmail.js
    (4.2): [maxTabs] is set and the mode has that many tabs open. *)
Definition at_capacity (mode : Mode.t) (tabs : list tabref) : bool :=
  match Mode.maxTabs mode with
  | Some n => bool_decide (n ≤ length tabs)%nat
  | None => false
  end.

(** Modelled from the spec: the Open transition of the missing tabmail.js
    (4.2): the mode is resolved; a non-negative answer of shouldSwitchTo is
    the index of the tab to switch to, and that tab is the result; else the
    capacity check, the panel, the openTab hook, the insertion at the end,
    the monitors, and the switch unless [args.background]. *)
Definition openTab (modeName : string) (args : Obj) : M (option tabref) :=
  let* modes := tabmail_get tabModes in
  match modes !! modeName, find_mode modeName with
  | Some _, Some (ty, mode) =>
      let* index :=
        match Mode.shouldSwitchTo mode with
        | Some hook => hook args
        | None => ret (-1)%Z
        end in
      if (0 <=? index)%Z then
        let* tabs := tabmail_get tabInfo in
        match tabs !! Z.to_nat index with
        | Some tab => switchToTab tab;; ret (Some tab)
        | None => ret None
        end
      else
        let* modes := tabmail_get tabModes in
        if at_capacity mode (default [] (modes !! modeName)) then throw ModeCapacityExceeded
        else
          let* tab := new_tab modeName in
          allocate_panel ty tab;;
          match or_fallback (Mode.openTab mode) (TabType.openTab ty) with
          | Some hook => hook tab args
          | None => ret tt
          end;;
          tabmail_modify (set_tabInfo (λ l, (l ++ [tab])%list));;
          tabmail_modify (set_tabModes (λ m, <[modeName := (default [] (m !! modeName) ++ [tab])%list]> m));;
          notify (TabOpened tab);;
          (if truthy (get args "background") then ret tt else switchToTab tab);;
          ret (Some tab)
  | _, _ => throw UnknownMode
  end.

(** Modelled from the spec: the CommandRouter of the missing tabmail.js
    (4.2): the hook of the selected tab's mode; unsupported without it. *)
Definition selected_mode : M (option Mode.t) :=
  let* current := tabmail_get currentTabInfo in
  match current with
  | Some tab => let* d := hooks_of tab in ret (snd <$> d)
  | None => ret None
  end.

(** Modelled from the spec: supportsCommand of the missing tabmail.js (4.2). *)
Definition supportsCommand (aCommand : string) : M bool :=
  let* mode := selected_mode in
  match mode ≫= Mode.supportsCommand with
  | Some hook => hook aCommand
  | None => ret false
  end.

(** Modelled from the spec: isCommandEnabled of the missing tabmail.js (4.2). *)
Definition isCommandEnabled (aCommand : string) : M bool :=
  let* mode := selected_mode in
  match mode ≫= Mode.isCommandEnabled with
  | Some hook => hook aCommand
  | None => ret false
  end.

(** Modelled from the spec: doCommand of the missing tabmail.js (4.2). *)
Definition doCommand (aCommand : string) : M unit :=
  let* mode := selected_mode in
  match mode ≫= Mode.doCommand with
  | Some hook => hook aCommand
  | None => ret tt
  end.

(** Modelled from the spec: the PersistenceCodec of the missing tabmail.js
    (4.5). [persistTab]: the state of one tab from its mode's hook, with the
    mode name; nothing for a mode without the hook. *)
Definition persistTab (tab : tabref) : M (option (string * Obj)) :=
  let* n := mode_name_of tab in
  match find_mode n ≫= (λ d, Mode.persistTab (snd d)) with
  | Some hook => let* state := hook tab in ret (Some (n, state))
  | None => ret None
  end.

(** Modelled from the spec: the iteration of save in the missing tabmail.js
    (4.5), over the TabCollection in order; a tab without a record is left
    out. *)
Fixpoint persist_each (tabs : list tabref) : M (list (string * Obj)) :=
  match tabs with
  | [] => ret []
  | tab :: rest =>
      let* entry := persistTab tab in
      let* entries := persist_each rest in
      ret (match entry with
           | Some e => e :: entries
           | None => entries
           end)
  end.

(** Modelled from the spec: save of the missing tabmail.js (4.5): the
    entries in tab order, and the index of the selected tab. *)
Definition save : M (list (string * Obj) * Z) :=
  let* tabs := tabmail_get tabInfo in
  let* current := tabmail_get currentTabInfo in
  let* entries := persist_each tabs in
  ret (entries, match current with
                | Some tab => indexOf tabs tab
                | None => (-1)%Z
                end).

(** Modelled from the spec: the restoration of one entry by the missing
    tabmail.js (4.5), through its mode's restoreTab hook, which is handed the
    engine's own openTab; UnknownMode for a mode that is not registered. *)
Definition restoreTab (entry : string * Obj) : M unit :=
  let* modes := tabmail_get tabModes in
  match modes !! entry.1, find_mode entry.1 with
  | Some _, Some (_, mode) =>
      match Mode.restoreTab mode with
      | Some hook => hook openTab entry.2
      | None => ret tt
      end
  | _, _ => throw UnknownMode
  end.

(** Modelled from the spec: the iteration of restore in the missing
    tabmail.js (4.5): every entry in order; a failing entry is reported and
    skipped. *)
Fixpoint restore_each (entries : list (string * Obj)) : M unit :=
  match entries with
  | [] => ret tt
  | entry :: rest => isolated (restoreTab entry) id;; restore_each rest
  end.
(** Modelled from the spec: restore of the missing tabmail.js (4.5). *)
Definition restore (record : list (string * Obj) * Z) : M unit :=
  restore_each record.1.

(** The load listener of lifeTabs.js. *)
Definition onLoad : M unit :=
  let* tabmail := gets tabmail in
  match tabmail with
  | Some _ =>
      registerTabType LifeTabs.lifeTabType;;
      registerTabMonitor LifeTabs.lifeTabMonitor
  | None => ret tt
  end.

End Engine.

(** ** The test window: a tabmail with nothing registered, and the life
    browser in the document. *)

Definition tabmail0 : Tabmail := mkTabmail ∅ ∅ [] None [] 1.
Definition world0 : World :=
  mkWorld (Some tabmail0) (Some 1%positive) ∅ ∅ ∅ 2 ∅ ∅ ∅ ∅ ∅ [] [] [].

(** The test window once lifeTabs.js has loaded, and once the life tab has
    been opened in it. *)
Definition tabmail_registered : Tabmail :=
  mkTabmail {["life"]} {["life" := []]} [] None ["lifeTabMonitor"] 1.
Definition world_registered : World := (onLoad world0).2.
Definition world_opened : World := (openTab [] [] "life" ∅ world_registered).2.

(** A window in which the life tab is open and selected, its browser showing
    the dashboard. *)
Definition tabmail1 : Tabmail :=
  mkTabmail {["life"]} {["life" := [1%positive]]} [1%positive] (Some 1%positive)
    ["lifeTabMonitor"] 2.
Definition world1 : World :=
  mkWorld (Some tabmail1) (Some 1%positive)
    {[(1%positive, "type") := "content"; (1%positive, "primary") := "true"]}
    {[1%positive := "http://localhost:8000/"]} ∅ 3
    {[1%positive := "life"]} {[1%positive := 2%positive]} ∅
    {[1%positive := "Life Dashboard"]} {[1%positive := 1%positive]} [] [] [].

(** A window with the life tab selected and a second tab, which shows its
    content in a browser of its own. *)
Definition tabmail2 : Tabmail :=
  mkTabmail {["life"]} {["life" := [1%positive]]} [1%positive; 2%positive] (Some 1%positive)
    ["lifeTabMonitor"] 3.
Definition world2 : World :=
  mkWorld (Some tabmail2) (Some 1%positive)
    {[(1%positive, "type") := "content"; (1%positive, "primary") := "true"]}
    {[1%positive := "http://localhost:8000/"]} ∅ 6
    {[1%positive := "life"; 2%positive := "life"]}
    {[1%positive := 2%positive; 2%positive := 3%positive]} ∅
    {[1%positive := "Life Dashboard"]} {[1%positive := 1%positive; 2%positive := 5%positive]}
    [] [] [].

(** ** Vocabulary of the statements *)

(** The tab's browser has the attribute [primary]. *)
Definition carries_primary (w : World) (tab : tabref) : Prop :=
  ∃ br, tab_browser w !! tab = Some br ∧ is_Some (attributes w !! (br, "primary")).

(** What the engine passes for a tab: null, or a tab record, which has a mode. *)
Definition tab_or_null (w : World) (aTab : option tabref) : Prop :=
  ∀ tab, aTab = Some tab → is_Some (tab_mode w !! tab).

(** The tabs an event carries are tab records. *)
Definition event_tabs (w : World) (event : Event) : Prop :=
  match event with
  | TabSwitched new old => tab_or_null w new ∧ tab_or_null w old
  | _ => True
  end.

(** The open tabs whose mode is "life", in the order of the collection. *)
Definition life_tabs (w : World) (tm : Tabmail) : list tabref :=
  filter (λ tab, tab_mode w !! tab = Some "life") (tabInfo tm).

(** The mode registry lists, for "life", exactly its open tabs. *)
Definition life_tracked (w : World) (tm : Tabmail) : Prop :=
  tabModes tm !! "life" = Some (life_tabs w tm).

(** The selected tab, if there is one, is a life tab. *)
Definition selected_is_life (w : World) (tm : Tabmail) : Prop :=
  ∀ tab, currentTabInfo tm = Some tab → tab_mode w !! tab = Some "life".

(** No monitor but [lifeTabMonitor] is registered. *)
Definition only_life_monitor (tm : Tabmail) : Prop :=
  Forall (λ n, n = "lifeTabMonitor") (tabMonitors tm).

(** The store without its record of loads and of pending health checks. *)
Definition erase_loads (w : World) : World :=
  set_fetching (λ _, []) (set_loaded (λ _, []) w).

(** The icon that openTab gives the tab. *)
Definition life_icon : string := "chrome://messenger/skin/icons/new/compact/calendar.svg".

(** * Properties *)

(** ** Running the effects *)

Lemma bind_ok {A B} (m : M A) (k : A → M B) w a w' :
  m w = (Ok a, w') → bind m k w = k a w'.
Proof. unfold bind. by intros ->. Qed.

Lemma bind_throw {A B} (m : M A) (k : A → M B) w e w' :
  m w = (Throw e, w') → bind m k w = (Throw e, w').
Proof. unfold bind. by intros ->. Qed.

Lemma tabmail_get_ok {A} (f : Tabmail → A) w tm :
  tabmail w = Some tm → tabmail_get f w = (Ok (f tm), w).
Proof. unfold tabmail_get, bind, gets, nonnull, ret. by intros ->. Qed.

(** [const tabmail = document.getElementById("tabmail")], then a property of it. *)
Lemma document_tabmail_ok {A} (k : Tabmail → M A) w tm :
  tabmail w = Some tm →
  (let* tabmail := gets tabmail in let* tabmail := nonnull tabmail in k tabmail) w = k tm w.
Proof. unfold bind, gets, nonnull, ret. by intros ->. Qed.

Lemma tabmail_get_none {A} (f : Tabmail → A) w :
  tabmail w = None → tabmail_get f w = (Throw TypeError, w).
Proof. unfold tabmail_get, bind, gets, nonnull, throw. by intros ->. Qed.

Lemma tabmail_modify_ok (f : Tabmail → Tabmail) w tm :
  tabmail w = Some tm → tabmail_modify f w = (Ok tt, set_tabmail (λ _, Some (f tm)) w).
Proof.
  intros H. unfold tabmail_modify. rewrite (bind_ok _ _ _ _ _ (tabmail_get_ok id w tm H)).
  unfold modify, set_tabmail. by rewrite H.
Qed.

Lemma mode_name_of_ok w tab n :
  tab_mode w !! tab = Some n → mode_name_of tab w = (Ok n, w).
Proof. unfold mode_name_of, bind, gets, nonnull, ret. by intros ->. Qed.

(** ** [indexOf] *)

Lemma indexOf_ge_m1 l x : (-1 ≤ indexOf l x)%Z.
Proof.
  induction l as [|y l IH]; simpl; [lia|].
  case_decide; [lia|]. destruct (Z.ltb_spec (indexOf l x) 0); lia.
Qed.

Lemma indexOf_elem l x : x ∈ l → (0 ≤ indexOf l x)%Z.
Proof.
  induction 1 as [x l|x y l Hin IH]; simpl.
  - by rewrite decide_True.
  - case_decide; [lia|]. destruct (Z.ltb_spec (indexOf l x) 0); lia.
Qed.

Lemma indexOf_lookup l x :
  (0 ≤ indexOf l x)%Z → l !! Z.to_nat (indexOf l x) = Some x.
Proof.
  induction l as [|y l IH]; simpl; [lia|].
  case_decide as Hy; [by subst|].
  destruct (Z.ltb_spec (indexOf l x) 0) as [|Hge]; [lia|]. intros _.
  rewrite Z2Nat.inj_add by lia. rewrite Nat.add_comm. simpl. by apply IH.
Qed.

Lemma indexOf_not_elem l x : x ∉ l → indexOf l x = (-1)%Z.
Proof.
  intros Hx. pose proof (indexOf_ge_m1 l x).
  destruct (Z.ltb_spec (indexOf l x) 0) as [|Hge]; [lia|].
  apply indexOf_lookup in Hge. apply list_elem_of_lookup_2 in Hge. done.
Qed.


(** ** persistTab *)

(** C3. For every tab, while the tabmail element is in the document and the
    URIs that browsers expose have a non-empty spec, persistTab of the life
    mode returns normally and leaves the whole store, the tab included, as it
    was; the record's [background] is true exactly when the tab is not
    [tabmail.currentTabInfo]; the record has a [url] exactly when the tab's
    browser exposes a current URI, and it is that URI's spec. *)
Theorem persistTab_record (w : World) (tm : Tabmail) (tab : tabref) :
  tabmail w = Some tm →
  (∀ br spec, currentURI w !! br = Some spec → spec ≠ "") →
  ∃ state : Obj,
    LifeTabs.life.persistTab tab w = (Ok state, w)
    ∧ state !! "background" = Some (VBool (bool_decide (currentTabInfo tm ≠ Some tab)))
    ∧ (is_Some (state !! "url")
       ↔ ∃ br, tab_browser w !! tab = Some br ∧ is_Some (currentURI w !! br))
    ∧ (∀ br spec, tab_browser w !! tab = Some br → currentURI w !! br = Some spec →
         state !! "url" = Some (VStr spec)).
Proof.
  intros Htm Huri. unfold LifeTabs.life.persistTab.
  rewrite (document_tabmail_ok _ w tm Htm).
  assert (Hbg : negb (bool_decide (Some tab = currentTabInfo tm))
                = bool_decide (currentTabInfo tm ≠ Some tab)).
  { repeat case_bool_decide; naive_solver. }
  rewrite Hbg. unfold bind, LifeTabs.life.currentURI_spec, gets.
  destruct (tab_browser w !! tab) as [br|] eqn:Hbr; simpl.
  - destruct (currentURI w !! br) as [spec|] eqn:Hspec; simpl.
    + assert (Hne : String.eqb spec "" = false).
      { apply String.eqb_neq. eauto. }
      rewrite Hne. simpl. eexists. split; [done|].
      split; [by rewrite lookup_insert_ne, lookup_singleton_eq|].
      rewrite lookup_insert_eq. split; [|naive_solver].
      split; [intros _; exists br; rewrite Hspec; eauto | eauto].
    + eexists. split; [done|]. rewrite lookup_singleton_eq. split; [done|].
      rewrite lookup_singleton_ne by done. split; [|naive_solver].
      split; [by intros [? ?]|]. intros (br' & [= <-] & [? ?]). congruence.
  - eexists. split; [done|]. rewrite lookup_singleton_eq. split; [done|].
    rewrite lookup_singleton_ne by done. split; [|naive_solver].
    split; [by intros [? ?]|]. by intros (br' & ? & _).
Qed.

Lemma persistTab_record_witness :
  tabmail world1 = Some tabmail1
  ∧ ∃ state : Obj,
      LifeTabs.life.persistTab 1 world1 = (Ok state, world1)
      ∧ state !! "background" = Some (VBool (bool_decide (currentTabInfo tabmail1 ≠ Some 1%positive)))
      ∧ (is_Some (state !! "url")
         ↔ ∃ br, tab_browser world1 !! 1%positive = Some br ∧ is_Some (currentURI world1 !! br))
      ∧ (∀ br spec, tab_browser world1 !! 1%positive = Some br →
           currentURI world1 !! br = Some spec → state !! "url" = Some (VStr spec)).
Proof.
  split; [reflexivity|].
  apply (persistTab_record world1 tabmail1 1); [reflexivity|].
  intros br spec H.
  change (currentURI world1) with ({[1%positive := "http://localhost:8000/"]} : gmap elem string) in H.
  apply lookup_singleton_Some in H as [_ <-]. done.
Defined.

(** ** onTitleChanged *)

(** C6. onTitleChanged of the life mode returns normally and leaves the tab
    with the title "Life Dashboard", whatever its title was and whatever else
    the store holds; running it a second time changes nothing more. *)
Theorem onTitleChanged_idempotent (w : World) (tab : tabref) :
  ∃ w',
    LifeTabs.life.onTitleChanged tab w = (Ok tt, w')
    ∧ tab_title w' !! tab = Some "Life Dashboard"
    ∧ w' = set_tab_title <[tab := "Life Dashboard"]> w
    ∧ LifeTabs.life.onTitleChanged tab w' = (Ok tt, w')
    ∧ (LifeTabs.life.onTitleChanged tab;; LifeTabs.life.onTitleChanged tab) w
      = LifeTabs.life.onTitleChanged tab w.
Proof.
  eexists. split; [reflexivity|]. split; [apply lookup_insert_eq|]. split; [reflexivity|].
  assert (H : LifeTabs.life.onTitleChanged tab (set_tab_title <[tab := "Life Dashboard"]> w)
              = (Ok tt, set_tab_title <[tab := "Life Dashboard"]> w)).
  { unfold LifeTabs.life.onTitleChanged, assign_title, modify, set_tab_title. simpl.
    by rewrite insert_insert_eq. }
  split; [exact H|]. unfold bind at 1. simpl. exact H.
Qed.

(** ** restoreTab *)

(** C8. Two persisted records that agree on everything but [url] make
    restoreTab, in either copy of the file, perform the same single call of
    the openTab it is given: mode "life", with an argument object that has
    the [background] of the record and nothing else. *)
Theorem restoreTab_ignores_url
    (tabmail_openTab : string → Obj → M (option tabref)) (s1 s2 : Obj) :
  delete "url" s1 = delete "url" s2 →
  LifeTabs.life.restoreTab tabmail_openTab s1 = LifeTabs.life.restoreTab tabmail_openTab s2
  ∧ LifeTabsHealthCheck.life.restoreTab tabmail_openTab s1
    = LifeTabsHealthCheck.life.restoreTab tabmail_openTab s2
  ∧ LifeTabs.life.restoreTab tabmail_openTab s1
    = (tabmail_openTab "life" {[ "background" := get s1 "background" ]};; ret tt)
  ∧ LifeTabsHealthCheck.life.restoreTab tabmail_openTab s1
    = (tabmail_openTab "life" {[ "background" := get s1 "background" ]};; ret tt)
  ∧ ({[ "background" := get s1 "background" ]} : Obj) !! "url" = None.
Proof.
  intros H.
  assert (Hbg : get s1 "background" = get s2 "background").
  { unfold get. rewrite <- (lookup_delete_ne s1 "url" "background") by done.
    rewrite H. by rewrite lookup_delete_ne. }
  unfold LifeTabs.life.restoreTab, LifeTabsHealthCheck.life.restoreTab.
  rewrite Hbg. done.
Qed.

Lemma restoreTab_ignores_url_witness :
  let s1 : Obj := {[ "background" := VBool true; "url" := VStr "http://localhost:8000/a" ]} in
  let s2 : Obj := {[ "background" := VBool true ]} in
  delete "url" s1 = delete "url" s2
  ∧ LifeTabs.life.restoreTab (λ _ _, ret None) s1 = LifeTabs.life.restoreTab (λ _ _, ret None) s2.
Proof.
  intros s1 s2.
  assert (H : delete "url" s1 = delete "url" s2) by (vm_compute; reflexivity).
  split; [exact H|].
  exact (proj1 (restoreTab_ignores_url (λ _ _, ret None) s1 s2 H)).
Defined.

(** ** The type-level saveTabState and the mode's showTab *)

Lemma saveTabState_some w tab br :
  tab_browser w !! tab = Some br →
  LifeTabs.saveTabState tab w
  = (Ok tt, set_attributes (λ m, delete (br, "primary") (<[(br, "type") := "content"]> m)) w).
Proof. intros H. unfold LifeTabs.saveTabState, bind, browser_of, gets. by rewrite H. Qed.

Lemma saveTabState_none w tab :
  tab_browser w !! tab = None → LifeTabs.saveTabState tab w = (Ok tt, w).
Proof. intros H. unfold LifeTabs.saveTabState, bind, browser_of, gets. by rewrite H. Qed.

Lemma showTab_some w tab br :
  tab_browser w !! tab = Some br →
  LifeTabs.life.showTab tab w
  = (Ok tt, set_attributes (λ m, <[(br, "primary") := "true"]> (<[(br, "type") := "content"]> m)) w).
Proof. intros H. unfold LifeTabs.life.showTab, bind, browser_of, gets. by rewrite H. Qed.

Lemma showTab_none w tab :
  tab_browser w !! tab = None → LifeTabs.life.showTab tab w = (Ok tt, w).
Proof. intros H. unfold LifeTabs.life.showTab, bind, browser_of, gets. by rewrite H. Qed.

(** After saveTabState of the tab whose browser alone could carry [primary],
    no tab carries it. *)
Lemma saveTabState_clears w outgoing :
  (∀ t, carries_primary w t → tab_browser w !! t = tab_browser w !! outgoing) →
  ∃ w1, LifeTabs.saveTabState outgoing w = (Ok tt, w1)
        ∧ tab_browser w1 = tab_browser w
        ∧ ∀ t, ¬ carries_primary w1 t.
Proof.
  intros Hinv. destruct (tab_browser w !! outgoing) as [bo|] eqn:Hbo.
  - rewrite (saveTabState_some _ _ _ Hbo). eexists. split; [done|]. split; [done|].
    intros t (br & Hbr & Hp). simpl in Hbr, Hp.
    destruct (decide (br = bo)) as [->|Hne].
    + rewrite lookup_delete_eq in Hp. by destruct Hp.
    + rewrite lookup_delete_ne, lookup_insert_ne in Hp by congruence.
      assert (Hc : carries_primary w t) by (exists br; done).
      apply Hinv in Hc. congruence.
  - rewrite (saveTabState_none _ _ Hbo). eexists. split; [done|]. split; [done|].
    intros t Hc. pose proof (Hinv t Hc) as H. destruct Hc as (br & Hbr & _). congruence.
Qed.

(** C4. For every tab that holds a browser, saveTabState of the life type
    returns normally and leaves that browser without [primary], and showTab of
    the life mode returns normally and leaves it with primary="true"; neither
    changes which browser a tab holds. When, before a switch, only the
    outgoing tab's browser can carry [primary], then after saveTabState of the
    outgoing tab followed by showTab of the incoming one every tab that
    carries [primary] holds the incoming tab's browser: one browser at most
    carries it, and one tab at most when no two tabs hold the same browser. *)
Theorem primary_exclusive (w : World) :
  (∀ tab br, tab_browser w !! tab = Some br →
     ∃ w1, LifeTabs.saveTabState tab w = (Ok tt, w1)
           ∧ attributes w1 !! (br, "primary") = None
           ∧ tab_browser w1 = tab_browser w)
  ∧ (∀ tab br, tab_browser w !! tab = Some br →
     ∃ w1, LifeTabs.life.showTab tab w = (Ok tt, w1)
           ∧ attributes w1 !! (br, "primary") = Some "true"
           ∧ tab_browser w1 = tab_browser w)
  ∧ (∀ outgoing incoming,
     (∀ t, carries_primary w t → tab_browser w !! t = tab_browser w !! outgoing) →
     ∃ w',
       (LifeTabs.saveTabState outgoing;; LifeTabs.life.showTab incoming) w = (Ok tt, w')
       ∧ tab_browser w' = tab_browser w
       ∧ (∀ t, carries_primary w' t → tab_browser w' !! t = tab_browser w' !! incoming)
       ∧ (∀ t1 t2, carries_primary w' t1 → carries_primary w' t2 →
            tab_browser w' !! t1 = tab_browser w' !! t2)
       ∧ ((∀ t1 t2 br, tab_browser w !! t1 = Some br → tab_browser w !! t2 = Some br → t1 = t2) →
          ∀ t1 t2, carries_primary w' t1 → carries_primary w' t2 → t1 = t2)).
Proof.
  split; [|split].
  - intros tab br H. rewrite (saveTabState_some _ _ _ H). eexists. split; [done|].
    split; [apply lookup_delete_eq|done].
  - intros tab br H. rewrite (showTab_some _ _ _ H). eexists. split; [done|].
    split; [apply lookup_insert_eq|done].
  - intros outgoing incoming Hinv.
    destruct (saveTabState_clears w outgoing Hinv) as (w1 & Hsave & Hbr1 & Hnone).
    rewrite (bind_ok _ _ _ _ _ Hsave).
    assert (Hshow : ∃ w', LifeTabs.life.showTab incoming w1 = (Ok tt, w')
              ∧ tab_browser w' = tab_browser w
              ∧ ∀ t, carries_primary w' t → tab_browser w' !! t = tab_browser w' !! incoming).
    { destruct (tab_browser w1 !! incoming) as [bi|] eqn:Hbi.
      - rewrite (showTab_some _ _ _ Hbi). eexists. split; [done|]. split; [done|].
        intros t (br & Hbr & Hp). simpl in Hbr, Hp |- *. rewrite Hbr, Hbi.
        destruct (decide (br = bi)) as [->|Hne]; [done|].
        rewrite !lookup_insert_ne in Hp by congruence.
        destruct (Hnone t). by exists br.
      - rewrite (showTab_none _ _ Hbi). eexists. split; [done|]. split; [done|].
        intros t Hc. by destruct (Hnone t). }
    destruct Hshow as (w' & -> & Hbr' & Hin). exists w'. split; [done|]. split; [done|].
    split; [done|]. split.
    + intros t1 t2 H1 H2. by rewrite (Hin t1 H1), (Hin t2 H2).
    + intros Hinj t1 t2 H1 H2. pose proof (Hin t1 H1) as E1. pose proof (Hin t2 H2) as E2.
      destruct H1 as (b1 & Hb1 & _). destruct H2 as (b2 & Hb2 & _).
      rewrite Hbr' in *. apply (Hinj t1 t2 b1); congruence.
Qed.

Lemma primary_exclusive_witness :
  (∀ t, carries_primary world2 t → tab_browser world2 !! t = tab_browser world2 !! 1%positive)
  ∧ ∃ w',
      (LifeTabs.saveTabState 1;; LifeTabs.life.showTab 2) world2 = (Ok tt, w')
      ∧ tab_browser w' = tab_browser world2
      ∧ (∀ t, carries_primary w' t → tab_browser w' !! t = tab_browser w' !! 2%positive)
      ∧ (∀ t1 t2, carries_primary w' t1 → carries_primary w' t2 →
           tab_browser w' !! t1 = tab_browser w' !! t2)
      ∧ ((∀ t1 t2 br, tab_browser world2 !! t1 = Some br →
            tab_browser world2 !! t2 = Some br → t1 = t2) →
         ∀ t1 t2, carries_primary w' t1 → carries_primary w' t2 → t1 = t2).
Proof.
  assert (H : ∀ t, carries_primary world2 t →
                tab_browser world2 !! t = tab_browser world2 !! 1%positive).
  { intros t (br & Hbr & Hp).
    change (tab_browser world2)
      with ({[1%positive := 1%positive; 2%positive := 5%positive]} : gmap tabref elem) in *.
    change (attributes world2)
      with ({[(1%positive, "type") := "content"; (1%positive, "primary") := "true"]}
            : gmap (elem * string) string) in Hp.
    destruct (decide (t = 1%positive)) as [->|H1]; [done|].
    rewrite lookup_insert_ne in Hbr by done.
    apply lookup_singleton_Some in Hbr as [<- <-].
    rewrite lookup_insert_ne, lookup_singleton_ne in Hp by done. by destruct Hp. }
  split; [exact H|].
  exact (proj2 (proj2 (primary_exclusive world2)) 1%positive 2%positive H).
Defined.

(** ** The descriptor *)

(** C5. [lifeTabType] names the shared panel "lifeTabPanel" and no per-tab
    panel, so exactly one presentation strategy is set, and registering it
    never fails with InvalidDescriptor; in a window whose tabmail knows
    neither the type nor the mode, registration succeeds and the mode "life"
    enters the registry with no open tab. *)
Theorem lifeTabType_one_presentation_strategy :
  TabType.panelId LifeTabs.lifeTabType = Some "lifeTabPanel"
  ∧ TabType.perTabPanel LifeTabs.lifeTabType = None
  ∧ (∀ w, (registerTabType LifeTabs.lifeTabType w).1 ≠ Throw InvalidDescriptor)
  ∧ (∀ w tm, tabmail w = Some tm → "life" ∉ tabTypes tm → tabModes tm !! "life" = None →
       ∃ tm', registerTabType LifeTabs.lifeTabType w = (Ok tt, set_tabmail (λ _, Some tm') w)
              ∧ tabModes tm' !! "life" = Some []
              ∧ "life" ∈ tabTypes tm'
              ∧ tabInfo tm' = tabInfo tm).
Proof.
  split; [done|]. split; [done|]. split.
  - intros w. unfold registerTabType.
    destruct (tabmail w) as [tm|] eqn:Htm.
    + rewrite (bind_ok _ _ _ _ _ (tabmail_get_ok tabTypes w tm Htm)).
      rewrite (bind_ok _ _ _ _ _ (tabmail_get_ok tabModes w tm Htm)).
      case_bool_decide; [done|]. simpl. case_bool_decide; simpl; [done|].
      rewrite (bind_ok _ _ _ _ _ (tabmail_modify_ok _ w tm Htm)).
      by erewrite tabmail_modify_ok.
    + by rewrite (bind_throw _ _ _ _ _ (tabmail_get_none tabTypes w Htm)).
  - intros w tm Htm Hty Hmode. unfold registerTabType.
    rewrite (bind_ok _ _ _ _ _ (tabmail_get_ok tabTypes w tm Htm)).
    rewrite (bind_ok _ _ _ _ _ (tabmail_get_ok tabModes w tm Htm)).
    rewrite bool_decide_eq_false_2 by done. simpl.
    rewrite bool_decide_eq_false_2 by (rewrite Hmode; by intros [? ?]). simpl.
    rewrite (bind_ok _ _ _ _ _ (tabmail_modify_ok _ w tm Htm)).
    erewrite tabmail_modify_ok by reflexivity.
    eexists. split; [reflexivity|]. simpl. split; [apply lookup_insert_eq|].
    split; [set_solver|done].
Qed.

Lemma lifeTabType_one_presentation_strategy_witness :
  tabmail world0 = Some tabmail0
  ∧ ∃ tm', registerTabType LifeTabs.lifeTabType world0
           = (Ok tt, set_tabmail (λ _, Some tm') world0)
           ∧ tabModes tm' !! "life" = Some []
           ∧ "life" ∈ tabTypes tm'
           ∧ tabInfo tm' = tabInfo tabmail0.
Proof.
  split; [reflexivity|].
  apply (proj2 (proj2 (proj2 lifeTabType_one_presentation_strategy)) world0 tabmail0).
  - reflexivity.
  - apply not_elem_of_empty.
  - apply lookup_empty.
Defined.

(** ** Commands *)

(** C7. For every command name and every store, the three command hooks of
    the life mode return normally and leave the store as it was;
    supportsCommand and isCommandEnabled answer false. Routed by the engine to
    the selected tab, when that tab is a life tab, the answers are the same:
    the command is unsupported, nothing is raised and nothing changes. *)
Theorem life_commands_unsupported (aCommand : string) (w : World) :
  LifeTabs.life.supportsCommand aCommand w = (Ok false, w)
  ∧ LifeTabs.life.isCommandEnabled aCommand w = (Ok false, w)
  ∧ LifeTabs.life.doCommand aCommand w = (Ok tt, w)
  ∧ (∀ other_types tm tab,
       tabmail w = Some tm → currentTabInfo tm = Some tab → tab_mode w !! tab = Some "life" →
       supportsCommand other_types aCommand w = (Ok false, w)
       ∧ isCommandEnabled other_types aCommand w = (Ok false, w)
       ∧ doCommand other_types aCommand w = (Ok tt, w)).
Proof.
  split; [done|]. split; [done|]. split; [done|].
  intros other_types tm tab Htm Hcur Hmode.
  assert (Hsel : selected_mode other_types w
                 = (Ok (snd <$> find_mode other_types "life"), w)).
  { unfold selected_mode.
    rewrite (bind_ok _ _ _ _ _ (tabmail_get_ok currentTabInfo w tm Htm)), Hcur.
    unfold hooks_of. rewrite (bind_ok _ _ _ _ _ (bind_ok _ _ _ _ _ (mode_name_of_ok _ _ _ Hmode))).
    done. }
  unfold supportsCommand, isCommandEnabled, doCommand.
  rewrite !(bind_ok _ _ _ _ _ Hsel). done.
Qed.

Lemma life_commands_unsupported_witness :
  tabmail world1 = Some tabmail1
  ∧ currentTabInfo tabmail1 = Some 1%positive
  ∧ tab_mode world1 !! 1%positive = Some "life"
  ∧ supportsCommand [] "cmd_print" world1 = (Ok false, world1)
  ∧ isCommandEnabled [] "cmd_print" world1 = (Ok false, world1)
  ∧ doCommand [] "cmd_print" world1 = (Ok tt, world1).
Proof.
  assert (H1 : tabmail world1 = Some tabmail1) by reflexivity.
  assert (H2 : currentTabInfo tabmail1 = Some 1%positive) by reflexivity.
  assert (H3 : tab_mode world1 !! 1%positive = Some "life") by reflexivity.
  split; [exact H1|]. split; [exact H2|]. split; [exact H3|].
  exact (proj2 (proj2 (proj2 (life_commands_unsupported "cmd_print" world1)))
           [] tabmail1 1%positive H1 H2 H3).
Defined.

(** ** The monitor *)

Lemma is_life_ok w aTab :
  tab_or_null w aTab → ∃ b, LifeTabs.lifeTabMonitor.is_life aTab w = (Ok b, w).
Proof.
  intros H. destruct aTab as [tab|]; simpl; [|by eexists].
  destruct (H tab eq_refl) as [n Hn].
  rewrite (bind_ok _ _ _ _ _ (mode_name_of_ok _ _ _ Hn)). by eexists.
Qed.

Lemma onTabSwitched_ok w aNewTab aOldTab :
  tab_or_null w aNewTab → tab_or_null w aOldTab →
  LifeTabs.lifeTabMonitor.onTabSwitched aNewTab aOldTab w = (Ok tt, w).
Proof.
  intros Hnew Hold. unfold LifeTabs.lifeTabMonitor.onTabSwitched.
  destruct (is_life_ok w aOldTab Hold) as [bo Ho].
  destruct (is_life_ok w aNewTab Hnew) as [bn Hn].
  rewrite (bind_ok _ _ _ _ _ Ho).
  assert (Hskip : ∀ (b : bool) v, (if b then ret tt else ret tt) v = (Ok tt, v))
    by (by intros []).
  rewrite (bind_ok _ _ _ _ _ (Hskip bo w)), (bind_ok _ _ _ _ _ Hn). apply Hskip.
Qed.

Lemma deliver_lifeTabMonitor w event :
  event_tabs w event → deliver event LifeTabs.lifeTabMonitor w = (Ok tt, w).
Proof.
  destruct event; simpl; try done. intros [Hnew Hold]. by apply onTabSwitched_ok.
Qed.

(** Telling only the life monitor changes nothing. *)
Lemma notify_each_life other_monitors event names w :
  event_tabs w event →
  Forall (λ n, n = "lifeTabMonitor") names →
  notify_each other_monitors event names w = (Ok tt, w).
Proof.
  intros Hev. induction 1 as [|n names -> _ IH]; simpl; [done|].
  unfold bind at 1. unfold isolated. rewrite (deliver_lifeTabMonitor _ _ Hev). exact IH.
Qed.

Lemma notify_life other_monitors event w tm :
  tabmail w = Some tm →
  event_tabs w event →
  Forall (λ n, n = "lifeTabMonitor") (tabMonitors tm) →
  notify other_monitors event w = (Ok tt, w).
Proof.
  intros Htm Hev Hmon. unfold notify.
  rewrite (bind_ok _ _ _ _ _ (tabmail_get_ok tabMonitors w tm Htm)).
  by apply notify_each_life.
Qed.

(** C9. Every handler of [lifeTabMonitor] returns normally and leaves the
    whole store as it was, the tabs it is passed and the engine's state
    included, for every tab, state record and pair of switched tabs the engine
    can pass (each of the two is null or a tab record). Hence an event that
    the engine delivers to this monitor alone leaves the store as it was and
    raises nothing. *)
Theorem lifeTabMonitor_pure_observer (w : World) (tab : tabref) (state : Obj)
    (aNewTab aOldTab : option tabref) :
  tab_or_null w aNewTab →
  tab_or_null w aOldTab →
  LifeTabs.lifeTabMonitor.onTabTitleChanged tab w = (Ok tt, w)
  ∧ LifeTabs.lifeTabMonitor.onTabOpened tab w = (Ok tt, w)
  ∧ LifeTabs.lifeTabMonitor.onTabClosing tab w = (Ok tt, w)
  ∧ LifeTabs.lifeTabMonitor.onTabPersist tab w = (Ok tt, w)
  ∧ LifeTabs.lifeTabMonitor.onTabRestored tab state w = (Ok tt, w)
  ∧ LifeTabs.lifeTabMonitor.onTabSwitched aNewTab aOldTab w = (Ok tt, w)
  ∧ (∀ other_monitors event tm,
       event ∈ [TabTitleChanged tab; TabOpened tab; TabClosing tab; TabPersist tab;
                TabRestored tab state; TabSwitched aNewTab aOldTab] →
       tabmail w = Some tm →
       Forall (λ n, n = "lifeTabMonitor") (tabMonitors tm) →
       notify other_monitors event w = (Ok tt, w)).
Proof.
  intros Hnew Hold. repeat (split; [done|]). split; [by apply onTabSwitched_ok|].
  intros other_monitors event tm Hev Htm Hmon. apply (notify_life _ _ _ tm); [done| |done].
  set_unfold in Hev. destruct Hev as [->|[->|[->|[->|[->|[->|[]]]]]]]; done.
Qed.

Lemma lifeTabMonitor_pure_observer_witness :
  (tab_or_null world2 (Some 2%positive) ∧ tab_or_null world2 (Some 1%positive))
  ∧ LifeTabs.lifeTabMonitor.onTabSwitched (Some 2%positive) (Some 1%positive) world2
    = (Ok tt, world2).
Proof.
  assert (H2 : tab_or_null world2 (Some 2%positive)).
  { intros tab [= <-]. by exists "life". }
  assert (H1 : tab_or_null world2 (Some 1%positive)).
  { intros tab [= <-]. by exists "life". }
  split; [by split|].
  exact (proj1 (proj2 (proj2 (proj2 (proj2 (proj2
    (lifeTabMonitor_pure_observer world2 1%positive ∅ (Some 2%positive) (Some 1%positive)
       H2 H1))))))).
Defined.

(** ** The two copies of the file *)

(** openTab of the second copy, called on the mode object, in a window that
    has the life browser. *)
Lemma variant_openTab_present w tab args node br :
  tab_tabNode w !! tab = Some node →
  lifeTabBrowser w = Some br →
  LifeTabsHealthCheck.life.openTab LifeTabsHealthCheck.life.ModesLife tab args w
  = (Ok tt,
     set_fetching
       (λ l, (l ++ [(tab, or_else (get args "url")
                            (VStr LifeTabsHealthCheck.LIFE_DASHBOARD_API_URL))])%list)
       (set_attributes <[(br, "type") := "content"]>
          (set_tab_browser <[tab := br]>
             (set_tab_title <[tab := "Life Dashboard"]>
                (set_icons <[node := life_icon]> w))))).
Proof.
  intros Hnode Hbr.
  unfold LifeTabsHealthCheck.life.openTab, LifeTabsHealthCheck.life.this_checkBackendAndLoad,
    LifeTabsHealthCheck.life.checkBackendAndLoad,
    bind, gets, setIcon, setAttribute, assign_title,
    assign_browser, browser_of, modify, nonnull, ret.
  rewrite Hnode. simpl. rewrite Hbr. simpl. rewrite lookup_insert_eq. reflexivity.
Qed.

(** The same call on a receiver without [checkBackendAndLoad]: the TypeError
    comes after the writes to the tab and to the browser, and no check is
    queued. *)
Lemma variant_openTab_foreign w this tab args node br :
  this ≠ LifeTabsHealthCheck.life.ModesLife →
  tab_tabNode w !! tab = Some node →
  lifeTabBrowser w = Some br →
  LifeTabsHealthCheck.life.openTab this tab args w
  = (Throw TypeError,
     set_attributes <[(br, "type") := "content"]>
       (set_tab_browser <[tab := br]>
          (set_tab_title <[tab := "Life Dashboard"]>
             (set_icons <[node := life_icon]> w)))).
Proof.
  intros Hthis Hnode Hbr.
  unfold LifeTabsHealthCheck.life.openTab, LifeTabsHealthCheck.life.this_checkBackendAndLoad,
    bind, gets, setIcon, setAttribute, assign_title,
    assign_browser, browser_of, modify, nonnull, ret, throw.
  rewrite Hnode. simpl. rewrite Hbr. simpl. rewrite lookup_insert_eq.
  by destruct this.
Qed.

Lemma variant_openTab_absent w this tab args node :
  tab_tabNode w !! tab = Some node →
  lifeTabBrowser w = None →
  LifeTabsHealthCheck.life.openTab this tab args w
  = (Ok tt,
     set_tab_browser (delete tab)
       (set_tab_title <[tab := "Life Dashboard"]> (set_icons <[node := life_icon]> w))).
Proof.
  intros Hnode Hbr.
  unfold LifeTabsHealthCheck.life.openTab, bind, gets, setIcon, setAttribute, assign_title,
    assign_browser, browser_of, modify, nonnull, ret.
  rewrite Hnode. simpl. rewrite Hbr. simpl. rewrite lookup_delete_eq. reflexivity.
Qed.

Lemma variant_openTab_no_node w this tab args :
  tab_tabNode w !! tab = None →
  LifeTabsHealthCheck.life.openTab this tab args w = (Throw TypeError, w).
Proof.
  intros Hnode. unfold LifeTabsHealthCheck.life.openTab, bind, gets, nonnull, throw.
  by rewrite Hnode.
Qed.

(** What the two openTab load, in a window that has the life browser: the
    first loads [args.url], or the built-in page, before it returns; the
    second, called on the mode object, loads nothing until the fetch of its
    health check settles, and then [args.url], or the backend's address, when
    the backend answered ok, and the error page otherwise. *)
Lemma openTab_loads (page : string) w tab args node br outcome :
  tab_tabNode w !! tab = Some node →
  lifeTabBrowser w = Some br →
  fetching w = [] →
  (LifeTabs.life.openTab tab args w).1 = Ok tt
  ∧ loaded (LifeTabs.life.openTab tab args w).2
    = (loaded w ++ [(br, or_else (get args "url") (VStr LifeTabs.LIFE_DASHBOARD_DEFAULT_URL))])%list
  ∧ ((LifeTabsHealthCheck.life.openTab LifeTabsHealthCheck.life.ModesLife tab args;;
      LifeTabsHealthCheck.life.settle page outcome) w).1 = Ok tt
  ∧ loaded ((LifeTabsHealthCheck.life.openTab LifeTabsHealthCheck.life.ModesLife tab args;;
             LifeTabsHealthCheck.life.settle page outcome) w).2
    = (loaded w
       ++ [(br, match outcome with
                | ResponseOk =>
                    or_else (get args "url") (VStr LifeTabsHealthCheck.LIFE_DASHBOARD_API_URL)
                | _ => VStr page
                end)])%list.
Proof.
  intros Hnode Hbr Hfetch.
  unfold LifeTabs.life.openTab, LifeTabsHealthCheck.life.openTab,
    LifeTabsHealthCheck.life.this_checkBackendAndLoad,
    LifeTabsHealthCheck.life.settle, LifeTabsHealthCheck.life.checkBackendAndLoad,
    LifeTabsHealthCheck.life.checkBackendAndLoad_resume, try_catch, loadURI,
    bind, gets, setIcon, setAttribute, assign_title, assign_browser, browser_of, modify,
    nonnull, ret, throw.
  rewrite Hnode. simpl. rewrite Hbr. simpl. rewrite !lookup_insert_eq. simpl.
  rewrite !lookup_insert_eq. rewrite Hfetch. simpl.
  repeat (split; [reflexivity|]).
  destruct outcome; simpl; rewrite ?lookup_insert_eq; simpl; auto.
Qed.

(** C10. The copy of lifeTabs.js with the health check has the same showTab,
    closeTab, saveTabState, persistTab, restoreTab, onTitleChanged,
    shouldSwitchTo, getBrowser, supportsCommand, isCommandEnabled and
    doCommand: each returns the same result and the same store on every
    input. The two openTab differ, whatever the second is called on: in a
    window that has the life browser the first has loaded a URL when it
    returns and the second has loaded nothing. Called on the mode object, the
    second has started its health check and loads, once the check settles,
    the dashboard or the error page; called on an object without
    checkBackendAndLoad, it throws a TypeError and starts no check. *)
Theorem copies_agree_except_openTab :
  (∀ tab w, LifeTabs.life.showTab tab w = LifeTabsHealthCheck.life.showTab tab w)
  ∧ (∀ tab w, LifeTabs.life.closeTab tab w = LifeTabsHealthCheck.life.closeTab tab w)
  ∧ (∀ tab w, LifeTabs.saveTabState tab w = LifeTabsHealthCheck.saveTabState tab w)
  ∧ (∀ tab w, LifeTabs.life.persistTab tab w = LifeTabsHealthCheck.life.persistTab tab w)
  ∧ (∀ tabmail_openTab state w,
       LifeTabs.life.restoreTab tabmail_openTab state w
       = LifeTabsHealthCheck.life.restoreTab tabmail_openTab state w)
  ∧ (∀ tab w, LifeTabs.life.onTitleChanged tab w = LifeTabsHealthCheck.life.onTitleChanged tab w)
  ∧ (∀ args w, LifeTabs.life.shouldSwitchTo args w = LifeTabsHealthCheck.life.shouldSwitchTo args w)
  ∧ (∀ tab w, LifeTabs.life.getBrowser tab w = LifeTabsHealthCheck.life.getBrowser tab w)
  ∧ (∀ aCommand w,
       LifeTabs.life.supportsCommand aCommand w
       = LifeTabsHealthCheck.life.supportsCommand aCommand w)
  ∧ (∀ aCommand w,
       LifeTabs.life.isCommandEnabled aCommand w
       = LifeTabsHealthCheck.life.isCommandEnabled aCommand w)
  ∧ (∀ aCommand w,
       LifeTabs.life.doCommand aCommand w = LifeTabsHealthCheck.life.doCommand aCommand w)
  ∧ (∀ page w this tab args node br outcome,
       tab_tabNode w !! tab = Some node → lifeTabBrowser w = Some br → fetching w = [] →
       LifeTabs.life.openTab tab args w ≠ LifeTabsHealthCheck.life.openTab this tab args w
       ∧ loaded (LifeTabs.life.openTab tab args w).2
         = (loaded w
            ++ [(br, or_else (get args "url") (VStr LifeTabs.LIFE_DASHBOARD_DEFAULT_URL))])%list
       ∧ loaded (LifeTabsHealthCheck.life.openTab this tab args w).2 = loaded w
       ∧ (this = LifeTabsHealthCheck.life.ModesLife →
          (LifeTabsHealthCheck.life.openTab this tab args w).1 = Ok tt
          ∧ fetching (LifeTabsHealthCheck.life.openTab this tab args w).2
            = [(tab, or_else (get args "url")
                       (VStr LifeTabsHealthCheck.LIFE_DASHBOARD_API_URL))]
          ∧ loaded ((LifeTabsHealthCheck.life.openTab this tab args;;
                     LifeTabsHealthCheck.life.settle page outcome) w).2
            = (loaded w
               ++ [(br, match outcome with
                        | ResponseOk =>
                            or_else (get args "url")
                              (VStr LifeTabsHealthCheck.LIFE_DASHBOARD_API_URL)
                        | _ => VStr page
                        end)])%list)
       ∧ (this ≠ LifeTabsHealthCheck.life.ModesLife →
          (LifeTabsHealthCheck.life.openTab this tab args w).1 = Throw TypeError
          ∧ fetching (LifeTabsHealthCheck.life.openTab this tab args w).2 = [])).
Proof.
  repeat (split; [done|]).
  intros page w this tab args node br outcome Hnode Hbr Hfetch.
  destruct (openTab_loads page w tab args node br outcome Hnode Hbr Hfetch)
    as (HAok & HA & _ & HB').
  assert (HBload : loaded (LifeTabsHealthCheck.life.openTab this tab args w).2 = loaded w).
  { destruct (decide (this = LifeTabsHealthCheck.life.ModesLife)) as [->|Hthis].
    - by rewrite (variant_openTab_present w tab args node br Hnode Hbr).
    - by rewrite (variant_openTab_foreign w this tab args node br Hthis Hnode Hbr). }
  split; [|split; [done|split; [done|split]]].
  - intros Heq. rewrite Heq, HBload in HA.
    apply (f_equal length) in HA. rewrite length_app in HA. simpl in HA. lia.
  - intros ->. rewrite (variant_openTab_present w tab args node br Hnode Hbr). simpl.
    rewrite Hfetch. done.
  - intros Hthis. rewrite (variant_openTab_foreign w this tab args node br Hthis Hnode Hbr).
    done.
Qed.

Lemma copies_agree_except_openTab_witness :
  (tab_tabNode world1 !! 1%positive = Some 2%positive
   ∧ lifeTabBrowser world1 = Some 1%positive ∧ fetching world1 = [])
  ∧ loaded (LifeTabs.life.openTab 1 ∅ world1).2
    = [(1%positive, VStr LifeTabs.LIFE_DASHBOARD_DEFAULT_URL)]
  ∧ loaded (LifeTabsHealthCheck.life.openTab LifeTabsHealthCheck.life.ModesLife 1 ∅ world1).2
    = []
  ∧ loaded ((LifeTabsHealthCheck.life.openTab LifeTabsHealthCheck.life.ModesLife 1 ∅;;
             LifeTabsHealthCheck.life.settle "data:text/html,unavailable" Rejected) world1).2
    = [(1%positive, VStr "data:text/html,unavailable")]
  ∧ (LifeTabsHealthCheck.life.openTab LifeTabsHealthCheck.life.LifeTabType 1 ∅ world1).1
    = Throw TypeError.
Proof.
  assert (H1 : tab_tabNode world1 !! 1%positive = Some 2%positive) by reflexivity.
  assert (H2 : lifeTabBrowser world1 = Some 1%positive) by reflexivity.
  assert (H3 : fetching world1 = []) by reflexivity.
  split; [by repeat split|].
  destruct copies_agree_except_openTab as (_ & _ & _ & _ & _ & _ & _ & _ & _ & _ & _ & H).
  destruct (H "data:text/html,unavailable" world1 LifeTabsHealthCheck.life.ModesLife
              1%positive ∅ 2%positive 1%positive Rejected H1 H2 H3)
    as (_ & HA & HB & Hmode & _).
  destruct (H "data:text/html,unavailable" world1 LifeTabsHealthCheck.life.LifeTabType
              1%positive ∅ 2%positive 1%positive Rejected H1 H2 H3)
    as (_ & _ & _ & _ & Hforeign).
  split; [exact HA|]. split; [exact HB|].
  split; [exact (proj2 (proj2 (Hmode eq_refl)))|].
  apply Hforeign. discriminate.
Defined.

(** ** Switching to a life tab *)

Lemma find_mode_life other_types :
  find_mode other_types "life" = Some (LifeTabs.lifeTabType, LifeTabs.modes_life).
Proof. reflexivity. Qed.

Lemma saveTabState_attributes w tab :
  ∃ f, LifeTabs.saveTabState tab w = (Ok tt, set_attributes f w).
Proof.
  destruct (tab_browser w !! tab) as [br|] eqn:H.
  - rewrite (saveTabState_some _ _ _ H). by eexists.
  - rewrite (saveTabState_none _ _ H). exists id. by destruct w.
Qed.

Lemma showTab_attributes w tab :
  ∃ f, LifeTabs.life.showTab tab w = (Ok tt, set_attributes f w).
Proof.
  destruct (tab_browser w !! tab) as [br|] eqn:H.
  - rewrite (showTab_some _ _ _ H). by eexists.
  - rewrite (showTab_none _ _ H). exists id. by destruct w.
Qed.

Lemma run_saveTabState_life other_types w tab :
  tab_mode w !! tab = Some "life" →
  run_saveTabState other_types tab w = LifeTabs.saveTabState tab w.
Proof.
  intros H. unfold run_saveTabState, hooks_of.
  rewrite (bind_ok _ _ _ _ _ (bind_ok _ _ _ _ _ (mode_name_of_ok _ _ _ H))). done.
Qed.

Lemma run_showTab_life other_types w tab :
  tab_mode w !! tab = Some "life" →
  run_showTab other_types tab w = LifeTabs.life.showTab tab w.
Proof.
  intros H. unfold run_showTab, hooks_of.
  rewrite (bind_ok _ _ _ _ _ (bind_ok _ _ _ _ _ (mode_name_of_ok _ _ _ H))). done.
Qed.

(** A switch to a life tab, from a life tab or from none, with no monitor
    but the life monitor: the tab is selected; of the store, only element
    attributes and the selection can have changed. *)
Lemma switchToTab_life other_types other_monitors w tm tab :
  tabmail w = Some tm →
  tab_mode w !! tab = Some "life" →
  selected_is_life w tm →
  only_life_monitor tm →
  ∃ f, switchToTab other_types other_monitors tab w
       = (Ok tt, set_tabmail (λ _, Some (set_currentTabInfo (λ _, Some tab) tm))
                   (set_attributes f w)).
Proof.
  intros Htm Hmode Hsel Hmon. unfold switchToTab.
  rewrite (bind_ok _ _ _ _ _ (tabmail_get_ok currentTabInfo w tm Htm)).
  case_bool_decide as Hcur.
  - exists id. unfold ret. f_equal. destruct w, tm; simpl in *. by subst.
  - assert (Hout : ∃ f1, match currentTabInfo tm with
                         | Some old => run_saveTabState other_types old
                         | None => ret tt
                         end w = (Ok tt, set_attributes f1 w)).
    { destruct (currentTabInfo tm) as [old|] eqn:Hold.
      - rewrite (run_saveTabState_life _ _ _ (Hsel old Hold)).
        apply saveTabState_attributes.
      - exists id. by destruct w. }
    destruct Hout as [f1 Hout]. rewrite (bind_ok _ _ _ _ _ Hout).
    destruct (showTab_attributes (set_attributes f1 w) tab) as [f2 Hin].
    rewrite <- (run_showTab_life other_types (set_attributes f1 w) tab Hmode) in Hin.
    rewrite (bind_ok _ _ _ _ _ Hin).
    erewrite bind_ok; [|by apply (tabmail_modify_ok _ _ tm)].
    exists (f2 ∘ f1). eapply notify_life; [reflexivity| |exact Hmon].
    split; intros t Ht; simpl.
    + injection Ht as <-. by rewrite Hmode.
    + rewrite (Hsel t Ht). by eexists.
Qed.

(** ** shouldSwitchTo and the second openTab *)

Lemma shouldSwitchTo_none w tm args :
  tabmail w = Some tm → tabModes tm !! "life" = Some [] →
  LifeTabs.life.shouldSwitchTo args w = (Ok (-1)%Z, w).
Proof.
  intros Htm Hlife. unfold LifeTabs.life.shouldSwitchTo.
  rewrite (document_tabmail_ok _ w tm Htm), Hlife. done.
Qed.

Lemma shouldSwitchTo_first w tm args tab rest :
  tabmail w = Some tm → tabModes tm !! "life" = Some (tab :: rest) →
  LifeTabs.life.shouldSwitchTo args w = (Ok (indexOf (tabInfo tm) tab), w).
Proof.
  intros Htm Hlife. unfold LifeTabs.life.shouldSwitchTo.
  rewrite (document_tabmail_ok _ w tm Htm), Hlife. done.
Qed.

(** C1. In a window whose tabmail lists, for the registered mode "life", its
    open tabs: shouldSwitchTo returns -1, whatever the arguments, when no life
    tab is open; when one is open it returns the index of that tab in the tab
    list, which is not negative. Neither changes the store. Hence openTab of
    "life" while a life tab is open (the selected tab, if any, being a life
    tab and no monitor but the life monitor being registered) opens nothing:
    it returns the open life tab, which is then selected, and the tab list is
    the one it was. *)
Theorem shouldSwitchTo_dedup (w : World) (tm : Tabmail) (args : Obj) :
  tabmail w = Some tm →
  life_tracked w tm →
  (∀ other_types,
     find_mode other_types "life" = Some (LifeTabs.lifeTabType, LifeTabs.modes_life)
     ∧ TabType.panelId LifeTabs.lifeTabType = Some "lifeTabPanel"
     ∧ Mode.maxTabs LifeTabs.modes_life = Some 1%nat
     ∧ Mode.shouldSwitchTo LifeTabs.modes_life = Some LifeTabs.life.shouldSwitchTo)
  ∧ (life_tabs w tm = [] → LifeTabs.life.shouldSwitchTo args w = (Ok (-1)%Z, w))
  ∧ (∀ tab rest, life_tabs w tm = tab :: rest →
       ∃ index,
         LifeTabs.life.shouldSwitchTo args w = (Ok index, w)
         ∧ (0 ≤ index)%Z
         ∧ tabInfo tm !! Z.to_nat index = Some tab
         ∧ tab_mode w !! tab = Some "life"
         ∧ (∀ other_types other_monitors,
              selected_is_life w tm → only_life_monitor tm →
              ∃ w' tm',
                openTab other_types other_monitors "life" args w = (Ok (Some tab), w')
                ∧ tabmail w' = Some tm'
                ∧ tabInfo tm' = tabInfo tm
                ∧ tabModes tm' = tabModes tm
                ∧ currentTabInfo tm' = Some tab
                ∧ tab_mode w' = tab_mode w)).
Proof.
  intros Htm Htr. unfold life_tracked in Htr. split; [done|]. split.
  - intros Hnone. rewrite Hnone in Htr. by apply (shouldSwitchTo_none w tm).
  - intros tab rest Hopen. rewrite Hopen in Htr.
    assert (Hin : tab ∈ life_tabs w tm) by (rewrite Hopen; left).
    unfold life_tabs in Hin. apply list_elem_of_filter in Hin as [Hmode Hin].
    pose proof (indexOf_elem _ _ Hin) as Hge.
    pose proof (indexOf_lookup _ _ Hge) as Hlook.
    pose proof (shouldSwitchTo_first w tm args tab rest Htm Htr) as Hhook.
    exists (indexOf (tabInfo tm) tab). repeat (split; [done|]).
    intros other_types other_monitors Hsel Hmon. unfold openTab.
    rewrite (bind_ok _ _ _ _ _ (tabmail_get_ok tabModes w tm Htm)), Htr.
    rewrite find_mode_life.
    change (Mode.shouldSwitchTo LifeTabs.modes_life) with (Some LifeTabs.life.shouldSwitchTo).
    rewrite (bind_ok _ _ _ _ _ Hhook).
    rewrite (proj2 (Z.leb_le _ _) Hge).
    rewrite (bind_ok _ _ _ _ _ (tabmail_get_ok tabInfo w tm Htm)), Hlook.
    destruct (switchToTab_life other_types other_monitors w tm tab Htm Hmode Hsel Hmon)
      as [f Hswitch].
    rewrite (bind_ok _ _ _ _ _ Hswitch).
    eexists. eexists. split; [reflexivity|]. done.
Qed.

Lemma onLoad_world0 : onLoad world0 = (Ok tt, world_registered).
Proof. vm_compute. reflexivity. Qed.

Lemma world_registered_tabmail : tabmail world_registered = Some tabmail_registered.
Proof. vm_compute. reflexivity. Qed.

Lemma world_opened_tabmail : tabmail world_opened = Some tabmail1.
Proof. vm_compute. reflexivity. Qed.

Lemma shouldSwitchTo_dedup_witness :
  (tabmail world_opened = Some tabmail1 ∧ life_tracked world_opened tabmail1)
  ∧ openTab [] [] "life" ∅ world_registered = (Ok (Some 1%positive), world_opened)
  ∧ ∃ w' tm',
      openTab [] [] "life" {[ "background" := VBool true ]} world_opened
      = (Ok (Some 1%positive), w')
      ∧ tabmail w' = Some tm'
      ∧ length (tabInfo tm') = 1%nat
      ∧ currentTabInfo tm' = Some 1%positive.
Proof.
  assert (H1 : tabmail world_opened = Some tabmail1) by exact world_opened_tabmail.
  assert (H2 : life_tracked world_opened tabmail1) by (vm_compute; reflexivity).
  split; [by split|]. split; [vm_compute; reflexivity|].
  destruct (proj2 (proj2 (shouldSwitchTo_dedup world_opened tabmail1
                            {[ "background" := VBool true ]} H1 H2)) 1%positive [])
    as (index & _ & _ & _ & _ & Hopen); [vm_compute; reflexivity|].
  destruct (Hopen [] []) as (w' & tm' & Hrun & Htm' & Hinfo & _ & Hcur & _).
  - intros tab [= <-]. vm_compute. reflexivity.
  - repeat constructor.
  - exists w', tm'. by rewrite Hinfo.
Defined.

(** ** Opening the first life tab *)

Lemma new_tab_ok w tm modeName :
  tabmail w = Some tm →
  new_tab modeName w
  = (Ok (tabId tm),
     set_tab_tabNode <[tabId tm := next_elem w]>
       (set_tab_mode <[tabId tm := modeName]>
          (set_next_elem Pos.succ (set_tabmail (λ _, Some (set_tabId Pos.succ tm)) w)))).
Proof.
  intros Htm. unfold new_tab.
  rewrite (bind_ok _ _ _ _ _ (tabmail_get_ok tabId w tm Htm)).
  rewrite (bind_ok _ _ _ _ _ (tabmail_modify_ok _ w tm Htm)).
  reflexivity.
Qed.

(** openTab of the life mode on a tab that has its tab node: it returns
    normally; the tab is titled; nothing of the engine's state or of the
    tabs' modes changes. *)
Lemma life_openTab_ok w tab args node :
  tab_tabNode w !! tab = Some node →
  ∃ w', LifeTabs.life.openTab tab args w = (Ok tt, w')
        ∧ tabmail w' = tabmail w
        ∧ tab_mode w' = tab_mode w
        ∧ tab_title w' = <[tab := "Life Dashboard"]> (tab_title w).
Proof.
  intros Hnode. unfold LifeTabs.life.openTab.
  unfold bind at 1. unfold gets at 1. rewrite Hnode. simpl.
  destruct (lifeTabBrowser w) as [br|] eqn:Hbr.
  - eexists. split.
    + unfold bind, gets, setIcon, assign_title, assign_browser, browser_of, modify, nonnull, ret.
      simpl. rewrite Hbr. simpl. rewrite lookup_insert_eq. simpl.
      rewrite lookup_insert_eq. reflexivity.
    + done.
  - eexists. split.
    + unfold bind, gets, setIcon, assign_title, assign_browser, browser_of, modify, nonnull, ret.
      simpl. rewrite Hbr. simpl. rewrite lookup_delete_eq. reflexivity.
    + done.
Qed.

(** openTab of "life" while the mode is registered with no tab open: a new
    tab is made, with the next tab id; it is a life tab, the last of the
    collection and the only one of its mode; it is selected unless
    [args.background]. What the outgoing tab does when it is deselected is
    known when that tab is a life tab. *)
Lemma openTab_life_new other_types other_monitors w tm args :
  tabmail w = Some tm →
  tabModes tm !! "life" = Some [] →
  (truthy (get args "background") = false → selected_is_life w tm) →
  only_life_monitor tm →
  ∃ w' tm',
    openTab other_types other_monitors "life" args w = (Ok (Some (tabId tm)), w')
    ∧ tabmail w' = Some tm'
    ∧ tabInfo tm' = (tabInfo tm ++ [tabId tm])%list
    ∧ tabModes tm' = <["life" := [tabId tm]]> (tabModes tm)
    ∧ currentTabInfo tm'
      = (if truthy (get args "background") then currentTabInfo tm else Some (tabId tm))
    ∧ tabMonitors tm' = tabMonitors tm
    ∧ tab_mode w' = <[tabId tm := "life"]> (tab_mode w)
    ∧ tab_title w' = <[tabId tm := "Life Dashboard"]> (tab_title w).
Proof.
  intros Htm Hlife Hsel Hmon. unfold openTab.
  rewrite (bind_ok _ _ _ _ _ (tabmail_get_ok tabModes w tm Htm)), Hlife, find_mode_life.
  change (Mode.shouldSwitchTo LifeTabs.modes_life) with (Some LifeTabs.life.shouldSwitchTo).
  rewrite (bind_ok _ _ _ _ _ (shouldSwitchTo_none w tm args Htm Hlife)).
  change (0 <=? -1)%Z with false. cbv iota.
  rewrite (bind_ok _ _ _ _ _ (tabmail_get_ok tabModes w tm Htm)), Hlife.
  change (at_capacity LifeTabs.modes_life (default [] (Some []))) with false. cbv iota.
  rewrite (bind_ok _ _ _ _ _ (new_tab_ok w tm "life" Htm)).
  set (tab := tabId tm).
  set (w1 := set_tab_tabNode _ _).
  change (allocate_panel LifeTabs.lifeTabType tab) with (ret tt : M unit).
  unfold bind at 1. unfold ret at 1.
  change (or_fallback (Mode.openTab LifeTabs.modes_life) (TabType.openTab LifeTabs.lifeTabType))
    with (Some LifeTabs.life.openTab).
  destruct (life_openTab_ok w1 tab args (next_elem w)) as (w2 & Hopen & Htm2 & Hmode2 & Htitle2).
  { apply lookup_insert_eq. }
  rewrite (bind_ok _ _ _ _ _ Hopen).
  set (tm2 := set_tabId Pos.succ tm).
  assert (Htm2' : tabmail w2 = Some tm2) by (by rewrite Htm2).
  rewrite (bind_ok _ _ _ _ _ (tabmail_modify_ok _ w2 tm2 Htm2')).
  erewrite bind_ok; [|by eapply tabmail_modify_ok].
  erewrite bind_ok; [|by eapply notify_life].
  destruct (truthy (get args "background")) eqn:Hbg.
  - unfold bind at 1. unfold ret at 1.
    eexists. eexists. split; [reflexivity|]. simpl. rewrite Hmode2, Htitle2.
    split; [reflexivity|]. simpl. rewrite Hlife. done.
  - match goal with |- context [bind _ _ ?w3] => set (w3' := w3) end.
    edestruct (switchToTab_life other_types other_monitors w3') as [f Hswitch];
      [reflexivity| | | |].
    + subst w3'. simpl. rewrite Hmode2. apply lookup_insert_eq.
    + intros old Hold. subst w3'. simpl in Hold |- *. rewrite Hmode2. simpl.
      destruct (decide (old = tab)) as [->|Hne]; [apply lookup_insert_eq|].
      rewrite lookup_insert_ne by done. by apply Hsel.
    + exact Hmon.
    + rewrite (bind_ok _ _ _ _ _ Hswitch).
      eexists. eexists. split; [reflexivity|]. simpl. rewrite Hmode2, Htitle2.
      split; [reflexivity|]. simpl. rewrite Hlife. done.
Qed.

(** Writing the mode of a tab that is not in the collection leaves the life
    tabs of the collection the same. *)
Lemma life_filter_fresh (m : gmap tabref string) (new : tabref) (n : string)
    (l : list tabref) :
  new ∉ l →
  filter (λ tab, <[new := n]> m !! tab = Some "life") l
  = filter (λ tab, m !! tab = Some "life") l.
Proof.
  induction l as [|x l IH]; [done|]. intros Hnew.
  apply not_elem_of_cons in Hnew as [Hne Hnew].
  rewrite !filter_cons, lookup_insert_ne by done. rewrite (IH Hnew). done.
Qed.

(** The registry keeps track: after the first life tab is opened, with a tab
    id that no open tab has, the mode "life" lists exactly that tab. *)
Lemma openTab_life_tracked other_types other_monitors w tm args :
  tabmail w = Some tm →
  tabModes tm !! "life" = Some [] →
  life_tabs w tm = [] →
  tabId tm ∉ tabInfo tm →
  (truthy (get args "background") = false → selected_is_life w tm) →
  only_life_monitor tm →
  ∃ w' tm',
    openTab other_types other_monitors "life" args w = (Ok (Some (tabId tm)), w')
    ∧ tabmail w' = Some tm'
    ∧ life_tabs w' tm' = [tabId tm]
    ∧ life_tracked w' tm'.
Proof.
  intros Htm Hlife Hnone Hfresh Hsel Hmon.
  destruct (openTab_life_new other_types other_monitors w tm args Htm Hlife Hsel Hmon)
    as (w' & tm' & Hrun & Htm' & Hinfo & Hmodes & _ & _ & Hmode' & _).
  assert (Htabs : life_tabs w' tm' = [tabId tm]).
  { unfold life_tabs in *. rewrite Hinfo, Hmode', filter_app.
    rewrite (life_filter_fresh _ _ _ _ Hfresh), Hnone. simpl.
    by rewrite filter_cons_True by apply lookup_insert_eq. }
  exists w', tm'. split; [done|]. split; [done|]. split; [done|].
  unfold life_tracked. by rewrite Htabs, Hmodes, lookup_insert_eq.
Qed.

(** ** Save and restore *)

(** persistTab never fails while the tabmail element is in the document, and
    changes nothing. *)
Lemma persistTab_ok w tm tab :
  tabmail w = Some tm →
  ∃ state : Obj,
    LifeTabs.life.persistTab tab w = (Ok state, w)
    ∧ get state "background" = VBool (bool_decide (currentTabInfo tm ≠ Some tab)).
Proof.
  intros Htm. unfold LifeTabs.life.persistTab.
  rewrite (document_tabmail_ok _ w tm Htm).
  assert (Hbg : negb (bool_decide (Some tab = currentTabInfo tm))
                = bool_decide (currentTabInfo tm ≠ Some tab)).
  { repeat case_bool_decide; naive_solver. }
  rewrite Hbg. unfold bind, LifeTabs.life.currentURI_spec, gets.
  match goal with |- context [truthy ?v] => destruct (truthy v) end.
  - eexists. split; [done|]. unfold get. by rewrite lookup_insert_ne, lookup_singleton_eq.
  - eexists. split; [done|]. unfold get. by rewrite lookup_singleton_eq.
Qed.

(** The engine's persistTab files the record of a life tab under "life". *)
Lemma engine_persistTab_life other_types w tab state :
  tab_mode w !! tab = Some "life" →
  LifeTabs.life.persistTab tab w = (Ok state, w) →
  persistTab other_types tab w = (Ok (Some ("life", state)), w).
Proof.
  intros Hmode Hsave. unfold persistTab.
  rewrite (bind_ok _ _ _ _ _ (mode_name_of_ok _ _ _ Hmode)), find_mode_life.
  change (Some (LifeTabs.lifeTabType, LifeTabs.modes_life) ≫= _)
    with (Some LifeTabs.life.persistTab).
  cbv iota beta. by rewrite (bind_ok _ _ _ _ _ Hsave).
Qed.

(** The engine's restoreTab on a life record, in a window where "life" is
    registered with no tab open. *)
Lemma engine_restoreTab_life other_types other_monitors (state : Obj) (background : bool)
    w0 tm0 :
  get state "background" = VBool background →
  tabmail w0 = Some tm0 →
  tabModes tm0 !! "life" = Some [] →
  (background = false → currentTabInfo tm0 = None) →
  only_life_monitor tm0 →
  ∃ w' tm',
    restoreTab other_types other_monitors ("life", state) w0 = (Ok tt, w')
    ∧ tabmail w' = Some tm'
    ∧ tabInfo tm' = (tabInfo tm0 ++ [tabId tm0])%list
    ∧ tabModes tm' !! "life" = Some [tabId tm0]
    ∧ tab_mode w' !! tabId tm0 = Some "life"
    ∧ currentTabInfo tm' = (if background then currentTabInfo tm0 else Some (tabId tm0)).
Proof.
  intros Hbg Htm0 Hlife Hcur Hmon. unfold restoreTab.
  rewrite (bind_ok _ _ _ _ _ (tabmail_get_ok tabModes w0 tm0 Htm0)).
  change (("life", state).1) with "life". rewrite Hlife, find_mode_life.
  change (Mode.restoreTab LifeTabs.modes_life) with (Some LifeTabs.life.restoreTab).
  change (("life", state).2) with state.
  unfold LifeTabs.life.restoreTab. rewrite Hbg.
  edestruct (openTab_life_new other_types other_monitors w0 tm0
               {[ "background" := VBool background ]}) as
    (w' & tm' & Hrun & Htm' & Hinfo & Hmodes & Hsel & _ & Hmode' & _);
    [exact Htm0|exact Hlife| |exact Hmon|].
  { unfold get. rewrite lookup_singleton_eq. simpl. intros -> old Hold.
    rewrite Hcur in Hold; done. }
  rewrite (bind_ok _ _ _ _ _ Hrun). exists w', tm'.
  split; [done|]. split; [done|]. split; [done|].
  split; [by rewrite Hmodes, lookup_insert_eq|].
  split; [by rewrite Hmode', lookup_insert_eq|].
  rewrite Hsel. unfold get. by rewrite lookup_singleton_eq.
Qed.

(** C2. For every life tab, while the tabmail element is in the document:
    persistTab returns a record, as the hook and through the engine, which
    files it under "life"; restoreTab on that record is one call of the
    openTab it is given, for the mode "life" and with [background] true
    exactly when the tab was not the selected one. Restored by an engine in
    which "life" is registered with no tab open and no monitor but the life
    monitor is registered, the record yields a new tab at the end of the
    collection, whose mode is "life"; it is the selected tab when the saved
    tab was (no tab being selected before), and it leaves the selection alone
    when the saved tab was in the background. When the life tab is the whole
    collection, save yields that one record and restore of what save yields
    does the same. *)
Theorem life_round_trip (w : World) (tm : Tabmail) (tab : tabref) :
  tabmail w = Some tm →
  tab_mode w !! tab = Some "life" →
  ∃ state : Obj,
    LifeTabs.life.persistTab tab w = (Ok state, w)
    ∧ (∀ other_types, persistTab other_types tab w = (Ok (Some ("life", state)), w))
    ∧ (∀ tabmail_openTab,
         LifeTabs.life.restoreTab tabmail_openTab state
         = (tabmail_openTab "life"
              {[ "background" := VBool (bool_decide (currentTabInfo tm ≠ Some tab)) ]};;
            ret tt))
    ∧ (∀ other_types other_monitors w0 tm0,
         tabmail w0 = Some tm0 →
         tabModes tm0 !! "life" = Some [] →
         (currentTabInfo tm = Some tab → currentTabInfo tm0 = None) →
         only_life_monitor tm0 →
         ∃ w' tm' new,
           restoreTab other_types other_monitors ("life", state) w0 = (Ok tt, w')
           ∧ (tabInfo tm = [tab] →
              ∃ selected,
                save other_types w = (Ok ([("life", state)], selected), w)
                ∧ restore other_types other_monitors ([("life", state)], selected) w0
                  = (Ok tt, w'))
           ∧ tabmail w' = Some tm'
           ∧ tabInfo tm' = (tabInfo tm0 ++ [new])%list
           ∧ tabModes tm' !! "life" = Some [new]
           ∧ tab_mode w' !! new = Some "life"
           ∧ currentTabInfo tm'
             = (if bool_decide (currentTabInfo tm = Some tab) then Some new
                else currentTabInfo tm0)).
Proof.
  intros Htm Hmode. destruct (persistTab_ok w tm tab Htm) as (state & Hsave & Hbg).
  pose proof (λ other_types, engine_persistTab_life other_types w tab state Hmode Hsave)
    as Hpersist.
  exists state. split; [done|]. split; [done|]. split.
  - intros cb. unfold LifeTabs.life.restoreTab. by rewrite Hbg.
  - intros other_types other_monitors w0 tm0 Htm0 Hlife Hcur Hmon.
    destruct (engine_restoreTab_life other_types other_monitors state _ w0 tm0
                Hbg Htm0 Hlife) as (w' & tm' & Hrun & Htm' & Hinfo & Hmodes & Hmode' & Hsel);
      [|exact Hmon|].
    { intros Hfg. apply bool_decide_eq_false in Hfg. apply Hcur.
      by destruct (decide (currentTabInfo tm = Some tab)). }
    exists w', tm', (tabId tm0). split; [done|]. split.
    { intros Hone. eexists. split.
      - unfold save.
        rewrite (bind_ok _ _ _ _ _ (tabmail_get_ok tabInfo w tm Htm)).
        rewrite (bind_ok _ _ _ _ _ (tabmail_get_ok currentTabInfo w tm Htm)).
        rewrite Hone. simpl.
        rewrite (bind_ok _ _ _ _ _ (bind_ok _ _ _ _ _ (Hpersist other_types))).
        reflexivity.
      - unfold restore. simpl. unfold bind at 1, isolated. by rewrite Hrun. }
    repeat (split; [done|]). rewrite Hsel.
    repeat case_bool_decide; naive_solver.
Qed.

Lemma life_round_trip_witness :
  (tabmail world_opened = Some tabmail1 ∧ tab_mode world_opened !! 1%positive = Some "life")
  ∧ ∃ state : Obj,
      LifeTabs.life.persistTab 1 world_opened = (Ok state, world_opened)
      ∧ (∀ tabmail_openTab,
           LifeTabs.life.restoreTab tabmail_openTab state
           = (tabmail_openTab "life" {[ "background" := VBool false ]};; ret tt))
      ∧ ∃ w' tm' new selected,
          save [] world_opened = (Ok ([("life", state)], selected), world_opened)
          ∧ restore [] [] ([("life", state)], selected) world_registered = (Ok tt, w')
          ∧ tabmail w' = Some tm'
          ∧ tabInfo tm' = [new]
          ∧ tab_mode w' !! new = Some "life"
          ∧ currentTabInfo tm' = Some new.
Proof.
  assert (H1 : tabmail world_opened = Some tabmail1) by exact world_opened_tabmail.
  assert (H2 : tab_mode world_opened !! 1%positive = Some "life") by (vm_compute; reflexivity).
  split; [by split|].
  destruct (life_round_trip world_opened tabmail1 1%positive H1 H2)
    as (state & Hsave & _ & Hrestore & Hengine).
  exists state. split; [exact Hsave|]. split; [exact Hrestore|].
  destruct (Hengine [] [] world_registered tabmail_registered)
    as (w' & tm' & new & _ & Hcodec & Htm' & Hinfo & _ & Hmode & Hcur).
  - exact world_registered_tabmail.
  - reflexivity.
  - reflexivity.
  - repeat constructor.
  - destruct (Hcodec eq_refl) as (selected & Hs & Hr).
    exists w', tm', new, selected. done.
Defined.

(** * Further properties of the two scripts *)

(** ** openTab *)

Lemma openTab_present w tab args node br :
  tab_tabNode w !! tab = Some node →
  lifeTabBrowser w = Some br →
  LifeTabs.life.openTab tab args w
  = (Ok tt,
     set_loaded
       (λ l, (l ++ [(br, or_else (get args "url") (VStr LifeTabs.LIFE_DASHBOARD_DEFAULT_URL))])%list)
       (set_attributes <[(br, "type") := "content"]>
          (set_tab_browser <[tab := br]>
             (set_tab_title <[tab := "Life Dashboard"]>
                (set_icons <[node := life_icon]> w))))).
Proof.
  intros Hnode Hbr.
  unfold LifeTabs.life.openTab, loadURI, bind, gets, setIcon, setAttribute, assign_title,
    assign_browser, browser_of, modify, nonnull, ret.
  rewrite Hnode. simpl. rewrite Hbr. simpl. rewrite lookup_insert_eq. simpl.
  rewrite lookup_insert_eq. reflexivity.
Qed.

Lemma openTab_absent w tab args node :
  tab_tabNode w !! tab = Some node →
  lifeTabBrowser w = None →
  LifeTabs.life.openTab tab args w
  = (Ok tt,
     set_tab_browser (delete tab)
       (set_tab_title <[tab := "Life Dashboard"]> (set_icons <[node := life_icon]> w))).
Proof.
  intros Hnode Hbr.
  unfold LifeTabs.life.openTab, loadURI, bind, gets, setIcon, setAttribute, assign_title,
    assign_browser, browser_of, modify, nonnull, ret.
  rewrite Hnode. simpl. rewrite Hbr. simpl. rewrite lookup_delete_eq. reflexivity.
Qed.

Lemma openTab_no_node w tab args :
  tab_tabNode w !! tab = None →
  LifeTabs.life.openTab tab args w = (Throw TypeError, w).
Proof.
  intros Hnode. unfold LifeTabs.life.openTab, bind, gets, nonnull, throw. by rewrite Hnode.
Qed.

(** X1. openTab on a tab that has its tab node, in a document that has the
    life browser: it returns normally; the tab is titled "Life Dashboard",
    holds the document's life browser and has the calendar icon on its node;
    the browser gets type="content" and no other attribute of any element
    changes; exactly one load is started, of [args.url] when that is truthy
    and of the built-in page otherwise (a missing or empty url included); the
    tabmail, the modes of the tabs and the other tabs' titles and browsers
    are as they were. *)
Theorem openTab_effect (w : World) (tab : tabref) (args : Obj) (node br : elem) :
  tab_tabNode w !! tab = Some node →
  lifeTabBrowser w = Some br →
  ∃ w',
    LifeTabs.life.openTab tab args w = (Ok tt, w')
    ∧ tab_title w' = <[tab := "Life Dashboard"]> (tab_title w)
    ∧ tab_browser w' = <[tab := br]> (tab_browser w)
    ∧ icons w' = <[node := life_icon]> (icons w)
    ∧ attributes w' = <[(br, "type") := "content"]> (attributes w)
    ∧ loaded w'
      = (loaded w
         ++ [(br, if truthy (get args "url") then get args "url"
                  else VStr LifeTabs.LIFE_DASHBOARD_DEFAULT_URL)])%list
    ∧ (args !! "url" = None ∨ args !! "url" = Some (VStr "") →
       loaded w' = (loaded w ++ [(br, VStr LifeTabs.LIFE_DASHBOARD_DEFAULT_URL)])%list)
    ∧ tabmail w' = tabmail w
    ∧ tab_mode w' = tab_mode w
    ∧ tab_tabNode w' = tab_tabNode w
    ∧ currentURI w' = currentURI w
    ∧ fetching w' = fetching w.
Proof.
  intros Hnode Hbr. rewrite (openTab_present w tab args node br Hnode Hbr).
  eexists. split; [reflexivity|]. simpl. repeat (split; [reflexivity|]).
  split; [|done]. unfold or_else, get. by intros [-> | ->].
Qed.

Lemma openTab_effect_witness :
  (tab_tabNode world1 !! 1%positive = Some 2%positive
   ∧ lifeTabBrowser world1 = Some 1%positive)
  ∧ ∃ w',
      LifeTabs.life.openTab 1 {[ "url" := VStr "" ]} world1 = (Ok tt, w')
      ∧ tab_browser w' !! 1%positive = Some 1%positive
      ∧ loaded w' = [(1%positive, VStr LifeTabs.LIFE_DASHBOARD_DEFAULT_URL)].
Proof.
  split; [by split|].
  destruct (openTab_effect world1 1%positive {[ "url" := VStr "" ]} 2%positive 1%positive
              eq_refl eq_refl)
    as (w' & Hrun & _ & Hbr & _ & _ & _ & Hload & _).
  exists w'. split; [exact Hrun|]. split.
  - rewrite Hbr. apply lookup_insert_eq.
  - apply Hload. right. apply lookup_singleton_eq.
Defined.

(** X2. openTab in a document without the life browser: it returns normally,
    titles the tab and sets its icon, leaves the tab without a browser (one
    it held before is dropped), starts no load and changes no attribute. *)
Theorem openTab_without_browser (w : World) (tab : tabref) (args : Obj) (node : elem) :
  tab_tabNode w !! tab = Some node →
  lifeTabBrowser w = None →
  ∃ w',
    LifeTabs.life.openTab tab args w = (Ok tt, w')
    ∧ tab_title w' !! tab = Some "Life Dashboard"
    ∧ icons w' !! node = Some life_icon
    ∧ tab_browser w' !! tab = None
    ∧ (∀ other, other ≠ tab → tab_browser w' !! other = tab_browser w !! other)
    ∧ loaded w' = loaded w
    ∧ attributes w' = attributes w
    ∧ tabmail w' = tabmail w.
Proof.
  intros Hnode Hbr. rewrite (openTab_absent w tab args node Hnode Hbr).
  eexists. split; [reflexivity|]. simpl.
  split; [apply lookup_insert_eq|]. split; [apply lookup_insert_eq|].
  split; [apply lookup_delete_eq|]. split; [|done].
  intros other Hne. by rewrite lookup_delete_ne.
Qed.

Lemma openTab_without_browser_witness :
  (tab_tabNode (set_lifeTabBrowser (λ _, None) world1) !! 1%positive = Some 2%positive
   ∧ lifeTabBrowser (set_lifeTabBrowser (λ _, None) world1) = None)
  ∧ ∃ w',
      LifeTabs.life.openTab 1 ∅ (set_lifeTabBrowser (λ _, None) world1) = (Ok tt, w')
      ∧ tab_browser w' !! 1%positive = None
      ∧ loaded w' = [].
Proof.
  split; [by split|].
  destruct (openTab_without_browser (set_lifeTabBrowser (λ _, None) world1) 1%positive ∅
              2%positive eq_refl eq_refl)
    as (w' & Hrun & _ & _ & Hbr & _ & Hload & _).
  exists w'. split; [exact Hrun|]. split; [exact Hbr|exact Hload].
Defined.

(** X3. openTab on a tab without a tab node, in either copy of the file,
    throws a TypeError at its first statement: nothing of the store has
    changed, the title included, and nothing is loaded or fetched. *)
Theorem openTab_without_tabNode (w : World) (tab : tabref) (args : Obj) :
  tab_tabNode w !! tab = None →
  LifeTabs.life.openTab tab args w = (Throw TypeError, w)
  ∧ ∀ this, LifeTabsHealthCheck.life.openTab this tab args w = (Throw TypeError, w).
Proof.
  intros Hnode. split; [by apply openTab_no_node|].
  intros this. by apply variant_openTab_no_node.
Qed.

Lemma openTab_without_tabNode_witness :
  tab_tabNode world_registered !! 1%positive = None
  ∧ LifeTabs.life.openTab 1 ∅ world_registered = (Throw TypeError, world_registered).
Proof.
  assert (H : tab_tabNode world_registered !! 1%positive = None) by (vm_compute; reflexivity).
  split; [exact H|]. exact (proj1 (openTab_without_tabNode world_registered 1%positive ∅ H)).
Defined.

(** ** getBrowser *)

(** X4. getBrowser changes nothing and never throws: it returns the browser
    the tab holds, else the document's life browser, and null only when there
    is neither. After openTab it returns the document's life browser, the
    element that openTab loaded into. *)
Theorem getBrowser_fallback (w : World) (tab : tabref) :
  LifeTabs.life.getBrowser tab w
  = (Ok (match tab_browser w !! tab with
         | Some br => Some br
         | None => lifeTabBrowser w
         end), w)
  ∧ ((LifeTabs.life.getBrowser tab w).1 = Ok None
     ↔ tab_browser w !! tab = None ∧ lifeTabBrowser w = None)
  ∧ (∀ args, is_Some (tab_tabNode w !! tab) →
       (LifeTabs.life.openTab tab args;; LifeTabs.life.getBrowser tab) w
       = (Ok (lifeTabBrowser w), (LifeTabs.life.openTab tab args w).2)).
Proof.
  assert (Hget : ∀ v, LifeTabs.life.getBrowser tab v
                      = (Ok (match tab_browser v !! tab with
                             | Some br => Some br
                             | None => lifeTabBrowser v
                             end), v)).
  { intros v. unfold LifeTabs.life.getBrowser, bind, browser_of, gets, ret.
    by destruct (tab_browser v !! tab). }
  split; [apply Hget|]. split.
  - rewrite Hget. simpl.
    destruct (tab_browser w !! tab), (lifeTabBrowser w); split; try done;
      by intros [? ?].
  - intros args [node Hnode]. destruct (lifeTabBrowser w) as [br|] eqn:Hbr.
    + rewrite (bind_ok _ _ _ _ _ (openTab_present w tab args node br Hnode Hbr)).
      rewrite (openTab_present w tab args node br Hnode Hbr), Hget. simpl.
      by rewrite lookup_insert_eq.
    + rewrite (bind_ok _ _ _ _ _ (openTab_absent w tab args node Hnode Hbr)).
      rewrite (openTab_absent w tab args node Hnode Hbr), Hget. simpl.
      by rewrite lookup_delete_eq, Hbr.
Qed.

Lemma getBrowser_fallback_witness :
  is_Some (tab_tabNode world2 !! 2%positive)
  ∧ (LifeTabs.life.openTab 2 ∅;; LifeTabs.life.getBrowser 2) world2
    = (Ok (Some 1%positive), (LifeTabs.life.openTab 2 ∅ world2).2).
Proof.
  assert (H : is_Some (tab_tabNode world2 !! 2%positive)) by (by exists 3%positive).
  split; [exact H|]. exact (proj2 (proj2 (getBrowser_fallback world2 2%positive)) ∅ H).
Defined.

(** ** showTab and saveTabState together *)

Lemma attributes_show_save (m : gmap (elem * string) string) br :
  <[(br, "primary") := "true"]>
    (<[(br, "type") := "content"]>
       (delete (br, "primary") (<[(br, "type") := "content"]> m)))
  = <[(br, "primary") := "true"]> (<[(br, "type") := "content"]> m).
Proof.
  apply map_eq. intros k.
  destruct (decide (k = (br, "primary"))) as [->|Hp]; [by rewrite !lookup_insert_eq|].
  rewrite !(lookup_insert_ne _ (br, "primary")) by done.
  destruct (decide (k = (br, "type"))) as [->|Ht]; [by rewrite !lookup_insert_eq|].
  by rewrite !lookup_insert_ne, lookup_delete_ne, lookup_insert_ne by done.
Qed.

Lemma attributes_save_show (m : gmap (elem * string) string) br :
  delete (br, "primary")
    (<[(br, "type") := "content"]>
       (<[(br, "primary") := "true"]> (<[(br, "type") := "content"]> m)))
  = delete (br, "primary") (<[(br, "type") := "content"]> m).
Proof.
  apply map_eq. intros k.
  destruct (decide (k = (br, "primary"))) as [->|Hp]; [by rewrite !lookup_delete_eq|].
  rewrite !(lookup_delete_ne _ (br, "primary")) by done.
  destruct (decide (k = (br, "type"))) as [->|Ht]; [by rewrite !lookup_insert_eq|].
  by rewrite !lookup_insert_ne by done.
Qed.

(** X5. showTab and saveTabState undo each other on the same tab and nothing
    accumulates: showTab after saveTabState leaves the store that showTab
    alone leaves, and saveTabState after showTab the store that saveTabState
    alone leaves. So a tab that is hidden and shown again is as it was when
    shown, and one shown and hidden again is as it was when hidden. *)
Theorem showTab_saveTabState_cancel (w : World) (tab : tabref) :
  (LifeTabs.saveTabState tab;; LifeTabs.life.showTab tab) w = LifeTabs.life.showTab tab w
  ∧ (LifeTabs.life.showTab tab;; LifeTabs.saveTabState tab) w = LifeTabs.saveTabState tab w
  ∧ (LifeTabs.life.showTab tab;; LifeTabs.saveTabState tab;; LifeTabs.life.showTab tab) w
    = LifeTabs.life.showTab tab w
  ∧ (LifeTabs.saveTabState tab;; LifeTabs.life.showTab tab;; LifeTabs.saveTabState tab) w
    = LifeTabs.saveTabState tab w.
Proof.
  destruct (tab_browser w !! tab) as [br|] eqn:Hbr.
  - assert (Hss : ∀ f, LifeTabs.life.showTab tab (set_attributes f w)
                       = (Ok tt, set_attributes
                                   (λ m, <[(br, "primary") := "true"]>
                                           (<[(br, "type") := "content"]> (f m))) w)).
    { intros f. by rewrite (showTab_some _ tab br). }
    assert (Hsv : ∀ f, LifeTabs.saveTabState tab (set_attributes f w)
                       = (Ok tt, set_attributes
                                   (λ m, delete (br, "primary")
                                           (<[(br, "type") := "content"]> (f m))) w)).
    { intros f. by rewrite (saveTabState_some _ tab br). }
    rewrite (showTab_some _ _ _ Hbr), (saveTabState_some _ _ _ Hbr).
    repeat split.
    + rewrite (bind_ok _ _ _ _ _ (saveTabState_some _ _ _ Hbr)), Hss.
      unfold set_attributes. simpl. by rewrite attributes_show_save.
    + rewrite (bind_ok _ _ _ _ _ (showTab_some _ _ _ Hbr)), Hsv.
      unfold set_attributes. simpl. by rewrite attributes_save_show.
    + rewrite (bind_ok _ _ _ _ _ (showTab_some _ _ _ Hbr)).
      rewrite (bind_ok _ _ _ _ _ (Hsv _)), Hss.
      unfold set_attributes. simpl. by rewrite attributes_save_show, attributes_show_save.
    + rewrite (bind_ok _ _ _ _ _ (saveTabState_some _ _ _ Hbr)).
      rewrite (bind_ok _ _ _ _ _ (Hss _)), Hsv.
      unfold set_attributes. simpl. by rewrite attributes_show_save, attributes_save_show.
  - rewrite (showTab_none _ _ Hbr), (saveTabState_none _ _ Hbr).
    repeat split;
      rewrite ?(bind_ok _ _ _ _ _ (saveTabState_none _ _ Hbr)),
        ?(bind_ok _ _ _ _ _ (showTab_none _ _ Hbr)),
        ?(bind_ok _ _ _ _ _ (saveTabState_none _ _ Hbr)),
        ?(showTab_none _ _ Hbr), ?(saveTabState_none _ _ Hbr); done.
Qed.

(** X6. showTab and saveTabState touch the attributes [type] and [primary] of
    the tab's browser and nothing else: every other attribute of every
    element is as it was, and so is the rest of the store; on a tab without a
    browser they change nothing at all. Neither throws. *)
Theorem showTab_saveTabState_frame (w : World) (tab : tabref) :
  (LifeTabs.life.showTab tab w).1 = Ok tt
  ∧ (LifeTabs.saveTabState tab w).1 = Ok tt
  ∧ set_attributes (λ _, attributes w) (LifeTabs.life.showTab tab w).2 = w
  ∧ set_attributes (λ _, attributes w) (LifeTabs.saveTabState tab w).2 = w
  ∧ (∀ e name,
       tab_browser w !! tab ≠ Some e ∨ (name ≠ "type" ∧ name ≠ "primary") →
       attributes (LifeTabs.life.showTab tab w).2 !! (e, name) = attributes w !! (e, name)
       ∧ attributes (LifeTabs.saveTabState tab w).2 !! (e, name) = attributes w !! (e, name))
  ∧ (tab_browser w !! tab = None →
       LifeTabs.life.showTab tab w = (Ok tt, w) ∧ LifeTabs.saveTabState tab w = (Ok tt, w)).
Proof.
  destruct (tab_browser w !! tab) as [br|] eqn:Hbr.
  - rewrite (showTab_some _ _ _ Hbr), (saveTabState_some _ _ _ Hbr). simpl.
    split; [done|]. split; [done|]. split; [by destruct w|]. split; [by destruct w|].
    split; [|done]. intros e name Hne.
    assert (H1 : (br, "primary") ≠ (e, name)).
    { intros [= <- <-]. destruct Hne as [Hne|[_ Hne]]; by apply Hne. }
    assert (H2 : (br, "type") ≠ (e, name)).
    { intros [= <- <-]. destruct Hne as [Hne|[Hne _]]; by apply Hne. }
    by rewrite lookup_insert_ne, lookup_delete_ne, !lookup_insert_ne by done.
  - rewrite (showTab_none _ _ Hbr), (saveTabState_none _ _ Hbr). simpl.
    split; [done|]. split; [done|]. split; [by destruct w|]. split; [by destruct w|]. done.
Qed.

Lemma showTab_saveTabState_frame_witness :
  (tab_browser world2 !! 1%positive ≠ Some 5%positive
   ∨ ("primary" ≠ "type" ∧ "primary" ≠ "primary"))
  ∧ attributes (LifeTabs.saveTabState 1 world2).2 !! (5%positive, "primary")
    = attributes world2 !! (5%positive, "primary").
Proof.
  assert (H : tab_browser world2 !! 1%positive ≠ Some 5%positive
              ∨ ("primary" ≠ "type" ∧ "primary" ≠ "primary")) by (left; done).
  split; [exact H|].
  destruct (showTab_saveTabState_frame world2 1%positive) as (_ & _ & _ & _ & Hframe & _).
  exact (proj2 (Hframe 5%positive "primary" H)).
Defined.

(** ** persistTab and shouldSwitchTo at the edges *)

(** X7. persistTab never changes the store, whether it returns or throws. It
    throws, a TypeError, exactly when the document has no tabmail element.
    The record it returns has no field but [background] and [url];
    [background] is a boolean; [url], when there, is a non-empty string (a
    current URI with an empty spec gives no [url]). *)
Theorem persistTab_shape (w : World) (tab : tabref) :
  (LifeTabs.life.persistTab tab w).2 = w
  ∧ ((LifeTabs.life.persistTab tab w).1 = Throw TypeError ↔ tabmail w = None)
  ∧ (∀ state : Obj,
       (LifeTabs.life.persistTab tab w).1 = Ok state →
       (∀ k, is_Some (state !! k) → k = "background" ∨ k = "url")
       ∧ (∃ b, state !! "background" = Some (VBool b))
       ∧ (∀ v, state !! "url" = Some v → ∃ spec, v = VStr spec ∧ spec ≠ "")).
Proof.
  unfold LifeTabs.life.persistTab. destruct (tabmail w) as [tm|] eqn:Htm.
  - rewrite (document_tabmail_ok _ w tm Htm).
    unfold bind, LifeTabs.life.currentURI_spec, gets, ret.
    set (bg := VBool _).
    assert (Hkeys1 : ∀ k, is_Some (({[ "background" := bg ]} : Obj) !! k) →
                          k = "background" ∨ k = "url").
    { intros k [v Hv]. apply lookup_singleton_Some in Hv as [<- _]. by left. }
    assert (Hplain :
      (∀ k, is_Some (({[ "background" := bg ]} : Obj) !! k) → k = "background" ∨ k = "url")
      ∧ (∃ b, ({[ "background" := bg ]} : Obj) !! "background" = Some (VBool b))
      ∧ (∀ v, ({[ "background" := bg ]} : Obj) !! "url" = Some v →
              ∃ spec, v = VStr spec ∧ spec ≠ "")).
    { split; [done|]. split; [by eexists; apply lookup_singleton_eq|].
      intros v Hv. by rewrite lookup_singleton_ne in Hv. }
    destruct (tab_browser w !! tab) as [br|]; simpl.
    + destruct (currentURI w !! br) as [spec|]; simpl.
      * destruct (String.eqb spec "") eqn:Hspec; simpl.
        -- split; [done|]. split; [done|]. by intros state [= <-].
        -- split; [done|]. split; [done|]. intros state [= <-]. split; [|split].
           ++ intros k [v Hv]. destruct (decide (k = "url")) as [->|Hne]; [by right|].
              rewrite lookup_insert_ne in Hv by done. apply Hkeys1. by exists v.
           ++ rewrite lookup_insert_ne by done. by eexists; apply lookup_singleton_eq.
           ++ intros v. rewrite lookup_insert_eq. intros [= <-]. exists spec.
              split; [done|]. by apply String.eqb_neq.
      * split; [done|]. split; [done|]. by intros state [= <-].
    + split; [done|]. split; [done|]. by intros state [= <-].
  - unfold bind, gets, nonnull, throw. rewrite Htm. simpl. split; [done|]. split; [done|].
    intros state Hs. discriminate Hs.
Qed.

Lemma persistTab_shape_witness :
  tabmail (set_tabmail (λ _, None) world1) = None
  ∧ (LifeTabs.life.persistTab 1 (set_tabmail (λ _, None) world1)).1 = Throw TypeError.
Proof.
  assert (H : tabmail (set_tabmail (λ _, None) world1) = None) by reflexivity.
  split; [exact H|].
  exact (proj2 (proj1 (proj2 (persistTab_shape (set_tabmail (λ _, None) world1) 1%positive))) H).
Defined.

Lemma indexOf_lt_length l x : (indexOf l x < Z.of_nat (length l))%Z.
Proof.
  induction l as [|y l IH]; [simpl; lia|].
  rewrite length_cons. simpl indexOf.
  case_decide; [lia|]. destruct (Z.ltb_spec (indexOf l x) 0); lia.
Qed.

(** X8. shouldSwitchTo ignores its argument and never changes the store. It
    throws a TypeError when the document has no tabmail element and when the
    tabmail has no mode "life"; otherwise it returns an integer from -1 up to
    the last position of the tab list: the position of the first tab of the
    mode when that tab is in the tab list, and -1 when the mode has no tab or
    its first tab is not in the tab list. *)
Theorem shouldSwitchTo_range (w : World) (args : Obj) :
  (LifeTabs.life.shouldSwitchTo args w).2 = w
  ∧ LifeTabs.life.shouldSwitchTo args w = LifeTabs.life.shouldSwitchTo ∅ w
  ∧ match tabmail w with
    | None => (LifeTabs.life.shouldSwitchTo args w).1 = Throw TypeError
    | Some tm =>
        match tabModes tm !! "life" with
        | None => (LifeTabs.life.shouldSwitchTo args w).1 = Throw TypeError
        | Some tabs =>
            ∃ index,
              (LifeTabs.life.shouldSwitchTo args w).1 = Ok index
              ∧ (-1 ≤ index < Z.of_nat (length (tabInfo tm)))%Z
              ∧ ((0 ≤ index)%Z → tabInfo tm !! Z.to_nat index = tabs !! 0%nat)
              ∧ (index = (-1)%Z ↔ ∀ first, tabs !! 0%nat = Some first → first ∉ tabInfo tm)
        end
    end.
Proof.
  split; [|split; [reflexivity|]].
  - unfold LifeTabs.life.shouldSwitchTo, bind, gets, nonnull, ret, throw.
    destruct (tabmail w) as [tm|]; simpl; [|done].
    by destruct (tabModes tm !! "life").
  - destruct (tabmail w) as [tm|] eqn:Htm.
    + unfold LifeTabs.life.shouldSwitchTo. rewrite (document_tabmail_ok _ w tm Htm).
      destruct (tabModes tm !! "life") as [tabs|]; [|done].
      simpl. eexists. split; [reflexivity|].
      destruct (tabs !! 0%nat) as [first|].
      * pose proof (indexOf_ge_m1 (tabInfo tm) first).
        pose proof (indexOf_lt_length (tabInfo tm) first).
        split; [lia|]. split; [apply indexOf_lookup|]. split.
        -- intros Hm1 ? [= <-] Hin. apply indexOf_elem in Hin. lia.
        -- intros Hnot. apply indexOf_not_elem. by apply Hnot.
      * split; [lia|]. split; [lia|]. split; [by intros _ ? ?|done].
    + unfold LifeTabs.life.shouldSwitchTo, bind, gets, nonnull, throw. by rewrite Htm.
Qed.

(** ** openTab and the title *)

Lemma assign_title_again (w : World) (tab : tabref) (t : string) :
  tab_title w !! tab = Some t → set_tab_title <[tab := t]> w = w.
Proof. intros H. destruct w. unfold set_tab_title. simpl in *. by rewrite insert_id. Qed.

(** X9. The title that openTab gives is the one onTitleChanged computes:
    onTitleChanged right after openTab changes nothing, in either copy of the
    file and on every input, the ones on which openTab throws included, and
    whatever the second copy's openTab is called on. *)
Theorem onTitleChanged_after_openTab (w : World) (tab : tabref) (args : Obj) :
  (LifeTabs.life.openTab tab args;; LifeTabs.life.onTitleChanged tab) w
  = LifeTabs.life.openTab tab args w
  ∧ ∀ this,
      (LifeTabsHealthCheck.life.openTab this tab args;;
       LifeTabsHealthCheck.life.onTitleChanged tab) w
      = LifeTabsHealthCheck.life.openTab this tab args w.
Proof.
  assert (Htitle : ∀ v, tab_title v !! tab = Some "Life Dashboard" →
                        LifeTabs.life.onTitleChanged tab v = (Ok tt, v)).
  { intros v Hv. unfold LifeTabs.life.onTitleChanged, assign_title, modify.
    by rewrite (assign_title_again v tab _ Hv). }
  destruct (tab_tabNode w !! tab) as [node|] eqn:Hnode.
  - destruct (lifeTabBrowser w) as [br|] eqn:Hbr.
    + split.
      * rewrite (bind_ok _ _ _ _ _ (openTab_present w tab args node br Hnode Hbr)).
        rewrite (openTab_present w tab args node br Hnode Hbr).
        apply Htitle, lookup_insert_eq.
      * intros this. destruct (decide (this = LifeTabsHealthCheck.life.ModesLife)) as [->|Hthis].
        -- rewrite (bind_ok _ _ _ _ _ (variant_openTab_present w tab args node br Hnode Hbr)).
           rewrite (variant_openTab_present w tab args node br Hnode Hbr).
           apply Htitle, lookup_insert_eq.
        -- by rewrite (bind_throw _ _ _ _ _
                         (variant_openTab_foreign w this tab args node br Hthis Hnode Hbr)),
             (variant_openTab_foreign w this tab args node br Hthis Hnode Hbr).
    + split.
      * rewrite (bind_ok _ _ _ _ _ (openTab_absent w tab args node Hnode Hbr)).
        rewrite (openTab_absent w tab args node Hnode Hbr).
        apply Htitle, lookup_insert_eq.
      * intros this.
        rewrite (bind_ok _ _ _ _ _ (variant_openTab_absent w this tab args node Hnode Hbr)).
        rewrite (variant_openTab_absent w this tab args node Hnode Hbr).
        apply Htitle, lookup_insert_eq.
  - split.
    + by rewrite (bind_throw _ _ _ _ _ (openTab_no_node w tab args Hnode)),
        (openTab_no_node w tab args Hnode).
    + intros this.
      by rewrite (bind_throw _ _ _ _ _ (variant_openTab_no_node w this tab args Hnode)),
        (variant_openTab_no_node w this tab args Hnode).
Qed.

(** ** The health check *)

Lemma resume_with_browser (page : string) w tab url outcome br :
  tab_browser w !! tab = Some br →
  LifeTabsHealthCheck.life.checkBackendAndLoad_resume page tab url outcome w
  = (Ok tt,
     set_loaded (λ l, (l ++ [(br, match outcome with
                                  | ResponseOk => url
                                  | _ => VStr page
                                  end)])%list) w).
Proof.
  intros Hbr.
  unfold LifeTabsHealthCheck.life.checkBackendAndLoad_resume, try_catch, loadURI, bind,
    browser_of, gets, nonnull, modify, ret, throw.
  destruct outcome; simpl; rewrite Hbr; reflexivity.
Qed.

(** X10. The health check of the second copy, in a document that has the
    life browser. openTab starts no load, whatever it is called on. Called on
    the mode object it returns normally and queues one check, for [args.url]
    when that is truthy and for the backend's address otherwise; when the
    fetch settles, exactly one load is started, in the tab's browser: of the
    queued URL when the response is ok, of the error page when it is not or
    when the fetch was rejected, and nothing else of the store changes; the
    tab collection is not consulted, the load is started the same whatever
    the tabmail holds by then. Called on an object without
    checkBackendAndLoad (the tab type, or no object) it throws a TypeError
    after it has titled the tab, given it the browser and set the browser's
    type, and queues no check. *)
Theorem health_check_loads (page : string) (w : World)
    (this : LifeTabsHealthCheck.life.Receiver) (tab : tabref) (args : Obj) (node br : elem) :
  tab_tabNode w !! tab = Some node →
  lifeTabBrowser w = Some br →
  ∃ w1 url,
    (LifeTabsHealthCheck.life.openTab this tab args w).2 = w1
    ∧ url = (if truthy (get args "url") then get args "url"
             else VStr LifeTabsHealthCheck.LIFE_DASHBOARD_API_URL)
    ∧ loaded w1 = loaded w
    ∧ tab_title w1 !! tab = Some "Life Dashboard"
    ∧ tab_browser w1 !! tab = Some br
    ∧ attributes w1 = <[(br, "type") := "content"]> (attributes w)
    ∧ (this = LifeTabsHealthCheck.life.ModesLife →
       (LifeTabsHealthCheck.life.openTab this tab args w).1 = Ok tt
       ∧ fetching w1 = (fetching w ++ [(tab, url)])%list
       ∧ ∀ outcome (f : option Tabmail → option Tabmail),
           LifeTabsHealthCheck.life.checkBackendAndLoad_resume page tab url outcome
             (set_tabmail f w1)
           = (Ok tt,
              set_loaded (λ l, (l ++ [(br, match outcome with
                                           | ResponseOk => url
                                           | _ => VStr page
                                           end)])%list) (set_tabmail f w1)))
    ∧ (this ≠ LifeTabsHealthCheck.life.ModesLife →
       (LifeTabsHealthCheck.life.openTab this tab args w).1 = Throw TypeError
       ∧ fetching w1 = fetching w).
Proof.
  intros Hnode Hbr. destruct (decide (this = LifeTabsHealthCheck.life.ModesLife)) as [->|Hthis].
  - rewrite (variant_openTab_present w tab args node br Hnode Hbr).
    eexists. eexists. split; [reflexivity|]. split; [reflexivity|]. simpl.
    split; [done|]. split; [apply lookup_insert_eq|]. split; [apply lookup_insert_eq|].
    split; [done|]. split; [|done]. intros _. split; [done|]. split; [done|].
    intros outcome f. apply resume_with_browser. simpl. apply lookup_insert_eq.
  - rewrite (variant_openTab_foreign w this tab args node br Hthis Hnode Hbr).
    eexists. eexists. split; [reflexivity|]. split; [reflexivity|]. simpl.
    split; [done|]. split; [apply lookup_insert_eq|]. split; [apply lookup_insert_eq|].
    split; [done|]. split; [done|]. done.
Qed.

Lemma health_check_loads_witness :
  (tab_tabNode world1 !! 1%positive = Some 2%positive
   ∧ lifeTabBrowser world1 = Some 1%positive)
  ∧ (∃ w1 url,
       LifeTabsHealthCheck.life.openTab LifeTabsHealthCheck.life.ModesLife 1 ∅ world1
       = (Ok tt, w1)
       ∧ url = VStr LifeTabsHealthCheck.LIFE_DASHBOARD_API_URL
       ∧ loaded
           (LifeTabsHealthCheck.life.checkBackendAndLoad_resume "data:text/html,unavailable"
              1 url ResponseNotOk (set_tabmail (λ _, Some tabmail0) w1)).2
         = [(1%positive, VStr "data:text/html,unavailable")])
  ∧ (LifeTabsHealthCheck.life.openTab LifeTabsHealthCheck.life.LifeTabType 1 ∅ world1).1
    = Throw TypeError
  ∧ fetching (LifeTabsHealthCheck.life.openTab LifeTabsHealthCheck.life.LifeTabType 1 ∅
                world1).2 = [].
Proof.
  split; [by split|]. split.
  - destruct (health_check_loads "data:text/html,unavailable" world1
                LifeTabsHealthCheck.life.ModesLife 1%positive ∅
                2%positive 1%positive eq_refl eq_refl)
      as (w1 & url & Hw1 & Hurl & Hload & _ & _ & _ & Hmode & _).
    destruct (Hmode eq_refl) as (Hok & _ & Hresume).
    exists w1, url. split.
    + rewrite <- Hw1, <- Hok. apply surjective_pairing.
    + split; [exact Hurl|].
      rewrite (Hresume ResponseNotOk (λ _, Some tabmail0)). simpl. by rewrite Hload.
  - destruct (health_check_loads "data:text/html,unavailable" world1
                LifeTabsHealthCheck.life.LifeTabType 1%positive ∅
                2%positive 1%positive eq_refl eq_refl)
      as (w1 & url & Hw1 & _ & _ & _ & _ & _ & _ & Hforeign).
    destruct Hforeign as (Hthrow & Hfetch); [discriminate|].
    split; [exact Hthrow|]. by rewrite Hw1, Hfetch.
Defined.

(** X11. The two openTab leave the same store but for the loads started and
    the health checks queued, on every input and whatever the second is
    called on: what they do to the tab, to the icon and to the browser's
    attributes is the same. They also return the same result when the second
    is called on the mode object, and when the document has no life browser
    or the tab no tab node; called on an object without checkBackendAndLoad,
    with the tab node and the life browser there, the second throws a
    TypeError where the first returns. *)
Theorem openTab_agree_but_loads (w : World) (this : LifeTabsHealthCheck.life.Receiver)
    (tab : tabref) (args : Obj) :
  erase_loads (LifeTabs.life.openTab tab args w).2
  = erase_loads (LifeTabsHealthCheck.life.openTab this tab args w).2
  ∧ (this = LifeTabsHealthCheck.life.ModesLife ∨ lifeTabBrowser w = None
     ∨ tab_tabNode w !! tab = None →
     (LifeTabs.life.openTab tab args w).1
     = (LifeTabsHealthCheck.life.openTab this tab args w).1)
  ∧ (this ≠ LifeTabsHealthCheck.life.ModesLife →
     is_Some (tab_tabNode w !! tab) → is_Some (lifeTabBrowser w) →
     (LifeTabs.life.openTab tab args w).1 = Ok tt
     ∧ (LifeTabsHealthCheck.life.openTab this tab args w).1 = Throw TypeError).
Proof.
  destruct (tab_tabNode w !! tab) as [node|] eqn:Hnode.
  - destruct (lifeTabBrowser w) as [br|] eqn:Hbr.
    + rewrite (openTab_present w tab args node br Hnode Hbr).
      destruct (decide (this = LifeTabsHealthCheck.life.ModesLife)) as [->|Hthis].
      * rewrite (variant_openTab_present w tab args node br Hnode Hbr).
        split; [done|]. split; [done|]. by intros Hne.
      * rewrite (variant_openTab_foreign w this tab args node br Hthis Hnode Hbr).
        split; [done|]. split; [|done]. by intros [?|[?|?]].
    + rewrite (openTab_absent w tab args node Hnode Hbr),
        (variant_openTab_absent w this tab args node Hnode Hbr).
      split; [done|]. split; [done|]. by intros _ _ [? ?].
  - rewrite (openTab_no_node w tab args Hnode),
      (variant_openTab_no_node w this tab args Hnode).
    split; [done|]. split; [done|]. by intros _ [? ?].
Qed.

Lemma openTab_agree_but_loads_witness :
  (LifeTabsHealthCheck.life.LifeTabType ≠ LifeTabsHealthCheck.life.ModesLife
   ∧ is_Some (tab_tabNode world1 !! 1%positive) ∧ is_Some (lifeTabBrowser world1))
  ∧ (LifeTabs.life.openTab 1 ∅ world1).1 = Ok tt
  ∧ (LifeTabsHealthCheck.life.openTab LifeTabsHealthCheck.life.LifeTabType 1 ∅ world1).1
    = Throw TypeError.
Proof.
  assert (H1 : LifeTabsHealthCheck.life.LifeTabType ≠ LifeTabsHealthCheck.life.ModesLife)
    by discriminate.
  assert (H2 : is_Some (tab_tabNode world1 !! 1%positive)) by (by exists 2%positive).
  assert (H3 : is_Some (lifeTabBrowser world1)) by (by exists 1%positive).
  split; [by repeat split|].
  exact (proj2 (proj2 (openTab_agree_but_loads world1 LifeTabsHealthCheck.life.LifeTabType
                         1%positive ∅)) H1 H2 H3).
Defined.

(** X12. When the second copy's openTab is called on the mode object,
    [args.url] is truthy and the backend answers ok, the second copy ends up
    with the load the first copy starts at once: after its openTab and the
    rest of its health check, the loads are those after the first copy's
    openTab. *)
Theorem health_check_ok_same_load (page : string) (w : World) (tab : tabref) (args : Obj)
    (node br : elem) :
  tab_tabNode w !! tab = Some node →
  lifeTabBrowser w = Some br →
  truthy (get args "url") = true →
  fetching (LifeTabsHealthCheck.life.openTab LifeTabsHealthCheck.life.ModesLife tab args w).2
  = (fetching w ++ [(tab, get args "url")])%list
  ∧ loaded ((LifeTabsHealthCheck.life.openTab LifeTabsHealthCheck.life.ModesLife tab args;;
             LifeTabsHealthCheck.life.checkBackendAndLoad_resume page tab (get args "url")
               ResponseOk) w).2
    = loaded (LifeTabs.life.openTab tab args w).2.
Proof.
  intros Hnode Hbr Hurl.
  rewrite (bind_ok _ _ _ _ _ (variant_openTab_present w tab args node br Hnode Hbr)).
  rewrite (variant_openTab_present w tab args node br Hnode Hbr).
  rewrite (openTab_present w tab args node br Hnode Hbr).
  unfold or_else. rewrite Hurl. split; [done|].
  erewrite resume_with_browser; [done|]. simpl. apply lookup_insert_eq.
Qed.

Lemma health_check_ok_same_load_witness :
  (tab_tabNode world1 !! 1%positive = Some 2%positive
   ∧ lifeTabBrowser world1 = Some 1%positive
   ∧ truthy (get ({[ "url" := VStr "http://localhost:8000/inbox" ]} : Obj) "url") = true)
  ∧ loaded ((LifeTabsHealthCheck.life.openTab LifeTabsHealthCheck.life.ModesLife 1
               {[ "url" := VStr "http://localhost:8000/inbox" ]};;
             LifeTabsHealthCheck.life.checkBackendAndLoad_resume "data:text/html,unavailable"
               1 (get ({[ "url" := VStr "http://localhost:8000/inbox" ]} : Obj) "url")
               ResponseOk) world1).2
    = loaded (LifeTabs.life.openTab 1 {[ "url" := VStr "http://localhost:8000/inbox" ]} world1).2.
Proof.
  split; [by repeat split|].
  exact (proj2 (health_check_ok_same_load "data:text/html,unavailable" world1 1%positive
                  {[ "url" := VStr "http://localhost:8000/inbox" ]} 2%positive 1%positive
                  eq_refl eq_refl eq_refl)).
Defined.

(** ** Restoring never restores the URL *)

(** X13. A restored life tab never gets the URL of the record: restoreTab,
    handed an openTab that passes its arguments to the mode's openTab, loads
    the built-in page in the first copy, for every record, one with a [url]
    included. In the second copy, with the mode's openTab called on the mode
    object, it queues the health check for the backend's address; with it
    called on an object without checkBackendAndLoad, restoreTab throws the
    TypeError of openTab, and nothing is loaded or queued. *)
Theorem restoreTab_loads_default (w : World) (tab : tabref) (state : Obj) (node br : elem) :
  tab_tabNode w !! tab = Some node →
  lifeTabBrowser w = Some br →
  (LifeTabs.life.restoreTab
     (λ _ args, LifeTabs.life.openTab tab args;; ret (Some tab)) state w).1 = Ok tt
  ∧ loaded (LifeTabs.life.restoreTab
              (λ _ args, LifeTabs.life.openTab tab args;; ret (Some tab)) state w).2
    = (loaded w ++ [(br, VStr LifeTabs.LIFE_DASHBOARD_DEFAULT_URL)])%list
  ∧ (LifeTabsHealthCheck.life.restoreTab
       (λ _ args, LifeTabsHealthCheck.life.openTab LifeTabsHealthCheck.life.ModesLife tab args;;
                  ret (Some tab)) state w).1 = Ok tt
  ∧ fetching (LifeTabsHealthCheck.life.restoreTab
                (λ _ args,
                   LifeTabsHealthCheck.life.openTab LifeTabsHealthCheck.life.ModesLife tab args;;
                   ret (Some tab)) state w).2
    = (fetching w ++ [(tab, VStr LifeTabsHealthCheck.LIFE_DASHBOARD_API_URL)])%list
  ∧ (∀ this, this ≠ LifeTabsHealthCheck.life.ModesLife →
       (LifeTabsHealthCheck.life.restoreTab
          (λ _ args, LifeTabsHealthCheck.life.openTab this tab args;; ret (Some tab))
          state w).1 = Throw TypeError
       ∧ loaded (LifeTabsHealthCheck.life.restoreTab
                   (λ _ args, LifeTabsHealthCheck.life.openTab this tab args;; ret (Some tab))
                   state w).2 = loaded w
       ∧ fetching (LifeTabsHealthCheck.life.restoreTab
                     (λ _ args, LifeTabsHealthCheck.life.openTab this tab args;; ret (Some tab))
                     state w).2 = fetching w).
Proof.
  intros Hnode Hbr.
  unfold LifeTabs.life.restoreTab, LifeTabsHealthCheck.life.restoreTab.
  rewrite !(bind_ok _ _ _ _ _ (bind_ok _ _ _ _ _ (openTab_present w tab _ node br Hnode Hbr))).
  rewrite !(bind_ok _ _ _ _ _
              (bind_ok _ _ _ _ _ (variant_openTab_present w tab _ node br Hnode Hbr))).
  unfold or_else, get. rewrite lookup_singleton_ne by done.
  repeat (split; [done|]). intros this Hthis.
  by rewrite !(bind_throw _ _ _ _ _
                 (bind_throw _ _ _ _ _
                    (variant_openTab_foreign w this tab _ node br Hthis Hnode Hbr))).
Qed.

Lemma restoreTab_loads_default_witness :
  (tab_tabNode world1 !! 1%positive = Some 2%positive
   ∧ lifeTabBrowser world1 = Some 1%positive)
  ∧ loaded (LifeTabs.life.restoreTab
              (λ _ args, LifeTabs.life.openTab 1 args;; ret (Some 1%positive))
              {[ "background" := VBool false; "url" := VStr "http://localhost:8000/inbox" ]}
              world1).2
    = [(1%positive, VStr LifeTabs.LIFE_DASHBOARD_DEFAULT_URL)].
Proof.
  split; [by split|].
  exact (proj1 (proj2 (restoreTab_loads_default world1 1%positive
                         {[ "background" := VBool false;
                            "url" := VStr "http://localhost:8000/inbox" ]}
                         2%positive 1%positive eq_refl eq_refl))).
Defined.

(** ** One browser for every life tab *)

(** Two tabs that hold one browser: showing one marks the other, hiding the
    other unmarks the first. *)
Lemma shared_browser_show_save (v : World) (t1 t2 : tabref) (br : elem) :
  tab_browser v !! t1 = Some br →
  tab_browser v !! t2 = Some br →
  carries_primary (LifeTabs.life.showTab t1 v).2 t2
  ∧ ¬ carries_primary ((LifeTabs.life.showTab t1;; LifeTabs.saveTabState t2) v).2 t1.
Proof.
  intros Hw1 Hw2.
  rewrite (bind_ok _ _ _ _ _ (showTab_some v t1 br Hw1)).
  rewrite (showTab_some v t1 br Hw1).
  erewrite saveTabState_some; [|exact Hw2]. split.
  - exists br. split; [exact Hw2|]. simpl. rewrite lookup_insert_eq. by eexists.
  - intros (b & Hb & Hp). simpl in Hb, Hp. rewrite Hw1 in Hb. injection Hb as <-.
    rewrite lookup_delete_eq in Hp. by destruct Hp.
Qed.

(** X14. Every tab that openTab opens holds the same element, the document's
    life browser. Two such tabs therefore share what is loaded and what the
    attributes say: both loads go into that browser, showTab of one makes the
    other's browser primary too, and saveTabState of the other takes primary
    from the first. *)
Theorem life_tabs_share_browser (w : World) (t1 t2 : tabref) (args1 args2 : Obj)
    (n1 n2 br : elem) :
  tab_tabNode w !! t1 = Some n1 →
  tab_tabNode w !! t2 = Some n2 →
  lifeTabBrowser w = Some br →
  ∃ w',
    (LifeTabs.life.openTab t1 args1;; LifeTabs.life.openTab t2 args2) w = (Ok tt, w')
    ∧ tab_browser w' !! t1 = Some br
    ∧ tab_browser w' !! t2 = Some br
    ∧ loaded w'
      = (loaded w
         ++ [(br, or_else (get args1 "url") (VStr LifeTabs.LIFE_DASHBOARD_DEFAULT_URL));
             (br, or_else (get args2 "url") (VStr LifeTabs.LIFE_DASHBOARD_DEFAULT_URL))])%list
    ∧ carries_primary (LifeTabs.life.showTab t1 w').2 t2
    ∧ ¬ carries_primary
          ((LifeTabs.life.showTab t1;; LifeTabs.saveTabState t2) w').2 t1.
Proof.
  intros H1 H2 Hbr.
  rewrite (bind_ok _ _ _ _ _ (openTab_present w t1 args1 n1 br H1 Hbr)).
  erewrite openTab_present; [|exact H2|exact Hbr].
  eexists. split; [reflexivity|].
  assert (Hb1 : <[t2 := br]> (<[t1 := br]> (tab_browser w)) !! t1 = Some br).
  { destruct (decide (t2 = t1)) as [->|Hne]; [apply lookup_insert_eq|].
    rewrite lookup_insert_ne by done. apply lookup_insert_eq. }
  split; [exact Hb1|]. split; [apply lookup_insert_eq|].
  split; [simpl; by rewrite <- app_assoc|].
  apply (shared_browser_show_save _ t1 t2 br); [exact Hb1|apply lookup_insert_eq].
Qed.

Lemma life_tabs_share_browser_witness :
  (tab_tabNode world2 !! 1%positive = Some 2%positive
   ∧ tab_tabNode world2 !! 2%positive = Some 3%positive
   ∧ lifeTabBrowser world2 = Some 1%positive)
  ∧ ∃ w',
      (LifeTabs.life.openTab 1 ∅;; LifeTabs.life.openTab 2 ∅) world2 = (Ok tt, w')
      ∧ tab_browser w' !! 1%positive = Some 1%positive
      ∧ tab_browser w' !! 2%positive = Some 1%positive
      ∧ carries_primary (LifeTabs.life.showTab 1 w').2 2%positive.
Proof.
  split; [by repeat split|].
  destruct (life_tabs_share_browser world2 1%positive 2%positive ∅ ∅ 2%positive 3%positive
              1%positive eq_refl eq_refl eq_refl)
    as (w' & Hrun & Hb1 & Hb2 & _ & Hshow & _).
  exists w'. split; [exact Hrun|]. split; [exact Hb1|]. split; [exact Hb2|exact Hshow].
Defined.
